(** * GaussianPlume: a shallow embedding of the plume-dispersion core

    The development follows the Python sources
    [GPFunctions.py], [GPSource.py], [GPPlumeModel.py] and
    [GPImportMeasurementParameters.py].

    Modelling conventions.
    - Numbers are IEEE binary64 values as numpy evaluates them
      ([numpy.float64] scalars and one-dimensional [ndarray]s): arithmetic
      never traps, it produces infinities and not-a-number.  They are
      Rocq's primitive floats.
    - The elementary functions [exp], [sin], [cos] and the power behind
      [**] come from the C library; they are a parameter ([libm]).
    - The module [GPConstants] is not part of the sources at hand; its
      constants are a parameter ([GPConstants]).
    - Exceptions are values of [exn]; a computation returns [result].
    - [ndarray]s are mutable objects: they live in a heap and are passed by
      reference wherever the code writes into them.
    - Python lists, which some functions turn into arrays on entry, are
      represented by arrays.
    - Diagnostic printing ([print_vars], [print]) has no effect on any
      value and is left out.
    - [pathlib] and the file system are outside the sources: paths are a
      parameter, and a file is the list of its lines.
    - Strings hold ASCII characters. *)

From Stdlib Require Import ZArith Floats Ascii String.
From stdpp Require Import base option list strings gmap pretty.

Set Warnings "-inexact-float".

(** ** Python run-time values *)

Module Py.

(** Reasons for a [TypeError] raised by the interpreter or by numpy. *)
Inductive type_error :=
| BadOperand            (* unsupported operand type(s), e.g. None in arithmetic *)
| NotSubscriptable      (* indexing None *)
| NoItemAssignment      (* item assignment on a scalar *)
| TooManyPositional
| MultipleValues (param : string)
| UnexpectedKeyword (kw : string)
| MissingArgument (param : string).

Inductive exn :=
| TypeError (why : type_error)
| ValueError (msg : string)        (* raised by the code or by pandas, with its message *)
| BroadcastError                   (* numpy's ValueError: shapes do not broadcast *)
| IndexError (msg : string)        (* raised by the code, with its message *)
| OutOfBounds                      (* numpy's IndexError: index out of bounds *)
| AmbiguousTruth                   (* numpy's ValueError: truth value of an array *)
| KeyError (key : string)
| AttributeError (name : string)
| DanglingReference.               (* a heap address that holds no array *)

Inductive result (A : Type) : Type :=
| Ok (a : A)
| Raise (e : exn).
Global Arguments Ok {A} a.
Global Arguments Raise {A} e.

Global Instance result_ret : MRet result := λ A, Ok.
Global Instance result_bind : MBind result := λ A B f r,
  match r with Ok a => f a | Raise e => Raise e end.
Global Instance result_fmap : FMap result := λ A B f r,
  match r with Ok a => Ok (f a) | Raise e => Raise e end.

Definition of_option {A} (e : exn) (o : option A) : result A :=
  match o with Some a => Ok a | None => Raise e end.

Fixpoint map_result {A B} (f : A → result B) (l : list A) : result (list B) :=
  match l with
  | [] => Ok []
  | a :: l => b ← f a; bs ← map_result f l; Ok (b :: bs)
  end.

(** A number as the numeric functions see it: [None], a scalar, or the
    contents of a one-dimensional array. *)
Inductive value :=
| VNone
| Num (x : float)
| Arr (xs : list float).

(** The result of a comparison: one truth value or an array of them. *)
Inductive bvalue :=
| BNum (b : bool)
| BArr (bs : list bool).

(** Element-wise application with numpy's broadcasting: a scalar and
    an array of length one stretch to the length of the other operand. *)
Definition lift1 (f : float → float) (a : value) : result value :=
  match a with
  | VNone => Raise (TypeError BadOperand)
  | Num x => Ok (Num (f x))
  | Arr xs => Ok (Arr (f <$> xs))
  end.

Definition broadcast {A B} (f : float → float → A) (mk : list A → B)
    (xs ys : list float) : result B :=
  if decide (length xs = length ys) then Ok (mk (zip_with f xs ys))
  else match xs, ys with
       | [x], _ => Ok (mk (f x <$> ys))
       | _, [y] => Ok (mk ((λ x, f x y) <$> xs))
       | _, _ => Raise BroadcastError
       end.

Definition lift2 (f : float → float → float) (a b : value) : result value :=
  match a, b with
  | VNone, _ | _, VNone => Raise (TypeError BadOperand)
  | Num x, Num y => Ok (Num (f x y))
  | Num x, Arr ys => Ok (Arr (f x <$> ys))
  | Arr xs, Num y => Ok (Arr ((λ x, f x y) <$> xs))
  | Arr xs, Arr ys => broadcast f Arr xs ys
  end.

Definition compare2 (f : float → float → bool) (a b : value) : result bvalue :=
  match a, b with
  | VNone, _ | _, VNone => Raise (TypeError BadOperand)
  | Num x, Num y => Ok (BNum (f x y))
  | Num x, Arr ys => Ok (BArr (f x <$> ys))
  | Arr xs, Num y => Ok (BArr ((λ x, f x y) <$> xs))
  | Arr xs, Arr ys => broadcast f BArr xs ys
  end.

(** [numpy.any(b)] *)
Definition np_any (b : bvalue) : bool :=
  match b with BNum b => b | BArr bs => existsb id bs end.

(** The positions that hold [true], in increasing order, counted from [i]. *)
Fixpoint true_positions (i : nat) (bs : list bool) : list nat :=
  match bs with
  | [] => []
  | b :: bs => (if b then [i] else []) ++ true_positions (S i) bs
  end.

(** [numpy.where(b)[0]]; numpy 1.x reads a scalar as an array of length one. *)
Definition np_where (b : bvalue) : list nat :=
  match b with
  | BNum b => true_positions 0 [b]
  | BArr bs => true_positions 0 bs
  end.

(** Python's [seq[i]] for an integer [i]: negative indices count from the end. *)
Definition py_index {A} (l : list A) (i : Z) : option A :=
  let n := Z.of_nat (length l) in
  if decide (0 ≤ i < n)%Z then l !! Z.to_nat i
  else if decide (- n ≤ i < 0)%Z then l !! Z.to_nat (i + n)
  else None.

(** [l[pos] = v] for an array of positions: numpy checks every position
    and then writes. *)
Definition set_items {A} (l : list A) (pos : list nat) (v : A) : result (list A) :=
  if forallb (λ p, bool_decide (p < length l)) pos
  then Ok (foldr (λ p acc, <[p := v]> acc) l pos)
  else Raise OutOfBounds.

(** The body of [for i, x in enumerate(l)], threading the loop state. *)
Fixpoint for_enumerate {A St} (body : St → nat → A → result St)
    (i : nat) (l : list A) (s : St) : result St :=
  match l with
  | [] => Ok s
  | x :: l => s ← body s i x; for_enumerate body (S i) l s
  end.

(** A stability index: a Python [int] or an array of integers. *)
Inductive ivalue :=
| IInt (i : Z)
| IArr (l : list Z).

(** A stability class: a Python [str], a [numpy.str_] scalar (what indexing
    an array of strings returns), or an array of strings. *)
Inductive cvalue :=
| CStr (s : string)
| CNpStr (s : string)
| CArr (l : list string).

Definition upper_ascii (c : ascii) : ascii :=
  let n := nat_of_ascii c in
  if bool_decide (97 ≤ n ≤ 122) then ascii_of_nat (n - 32) else c.
Definition lower_ascii (c : ascii) : ascii :=
  let n := nat_of_ascii c in
  if bool_decide (65 ≤ n ≤ 90) then ascii_of_nat (n + 32) else c.
Fixpoint string_map (f : ascii → ascii) (s : string) : string :=
  match s with
  | EmptyString => EmptyString
  | String c s => String (f c) (string_map f s)
  end.
(** [s.upper()] and [s.lower()] *)
Definition upper : string → string := string_map upper_ascii.
Definition lower : string → string := string_map lower_ascii.

(** Expressions: operands are evaluated from left to right and the first
    exception wins. *)
Definition of_value (v : value) : result value := Ok v.
Definition rop1 (f : float → float) (ra : result value) : result value :=
  a ← ra; lift1 f a.
Definition rop2 (f : float → float → float) (ra rb : result value) : result value :=
  a ← ra; b ← rb; lift2 f a b.
Definition rcmp (f : float → float → bool) (ra rb : result value) : result bvalue :=
  a ← ra; b ← rb; compare2 f a b.

End Py.
Export Py.

(** ** Arrays as heap objects *)

Module Heap.

Definition loc := nat.

(** A Python object handed to a function: [None], a scalar, or a
    reference to an [ndarray]. *)
Inductive obj :=
| ONone
| OFloat (x : float)
| OArr (l : loc).

Abbreviation heap := (gmap loc (list float)).

(** Computations that read and write the heap and may raise; the heap
    keeps the writes made before an exception. *)
Definition St (A : Type) : Type := heap → result A * heap.

Global Instance St_ret : MRet St := λ A a h, (Ok a, h).
Global Instance St_bind : MBind St := λ A B f m h,
  match m h with
  | (Ok a, h') => f a h'
  | (Raise e, h') => (Raise e, h')
  end.

Definition lift {A} (r : result A) : St A := λ h, (r, h).

Definition load (o : obj) : St value := λ h,
  match o with
  | ONone => (Ok VNone, h)
  | OFloat x => (Ok (Num x), h)
  | OArr l => (of_option DanglingReference (Arr <$> h !! l), h)
  end.

(** [type(o) == numpy.ndarray] *)
Definition is_ndarray (o : obj) : bool :=
  match o with OArr _ => true | _ => false end.

(** [o[pos] = v] *)
Definition setitem (o : obj) (pos : list nat) (v : float) : St () := λ h,
  match o with
  | ONone | OFloat _ => (Raise (TypeError NoItemAssignment), h)
  | OArr l =>
      match h !! l with
      | None => (Raise DanglingReference, h)
      | Some xs =>
          match set_items xs pos v with
          | Ok xs' => (Ok (), <[l := xs']> h)
          | Raise e => (Raise e, h)
          end
      end
  end.

(** A freshly computed value becomes an object of its own. *)
Definition alloc (v : value) : St obj := λ h,
  match v with
  | VNone => (Ok ONone, h)
  | Num x => (Ok (OFloat x), h)
  | Arr xs => let l := fresh (dom h) in (Ok (OArr l), <[l := xs]> h)
  end.

End Heap.
Export Heap.

Coercion Num : float >-> value.
Coercion of_value : value >-> result.

(** ** The C library and the constants module *)

Record libm := {
  libm_exp : float → float;
  libm_sin : float → float;
  libm_cos : float → float;
  libm_pow : float → float → float
}.

Definition table := list (list float).

Record molecule_properties_t := {
  formula : string;
  nice_name : string;
  molecular_mass : float
}.

(** [m_prop["molecular_mass"]] *)
Definition get_molecular_mass (m_prop : molecule_properties_t) : float :=
  molecular_mass m_prop.

(** What the code reads from the module [GPConstants]. *)
Record GPConstants := {
  deg2rad : float;
  latlon2dxdy_lon_conversion_factor : float;
  latlon2dxdy_lat_conversion_factor : float;
  liter_per_mole_air : float;
  sigma_ca : float;
  sigma_cb : float;
  dispersion_constants : string → result table;
  molecule_properties : string → result molecule_properties_t;
  implemented_molecules : list string
}.

(** [numpy.pi] *)
Definition numpy_pi : float := 0x1.921fb54442d18p+1%float.

Declare Scope np_scope.
Delimit Scope np_scope with np.
Reserved Notation "x ** y" (at level 30, right associativity).

Notation "x + y" := (rop2 PrimFloat.add x y) : np_scope.
Notation "x - y" := (rop2 PrimFloat.sub x y) : np_scope.
Notation "x * y" := (rop2 PrimFloat.mul x y) : np_scope.
Notation "x / y" := (rop2 PrimFloat.div x y) : np_scope.
Notation "- x" := (rop1 PrimFloat.opp x) : np_scope.
Notation "x <? y" := (rcmp PrimFloat.ltb x y) : np_scope.
Notation "x >? y" := (rcmp (λ a b, PrimFloat.ltb b a) x y) (at level 70) : np_scope.

(** An assignment [x = e] of a numeric expression, followed by the rest of
    the body. *)
Notation "'let*' x ':=' e 'in' k" :=
  (mbind (M:=result) (A:=value) (λ x : value, k) e)
  (at level 10, x name, e at level 100, k at level 200, only parsing).

(** Reading a variable whose object may be an array: its current contents. *)
Notation "'let@' x ':=' e 'in' k" :=
  (mbind (M:=St) (A:=value) (λ x : value, k) e)
  (at level 10, x name, e at level 100, k at level 200, only parsing).

(** ** GPFunctions.py *)

Module GPF.
Section GPFunctions.
Context (L : libm) (GPC : GPConstants).

Local Open Scope float_scope.
Local Open Scope np_scope.

Notation "x ** y" := (rop2 (libm_pow L) x y) : np_scope.

Definition np_exp (a : result value) : result value := rop1 (libm_exp L) a.
Definition np_sin (a : result value) : result value := rop1 (libm_sin L) a.
Definition np_cos (a : result value) : result value := rop1 (libm_cos L) a.
Definition np_sqrt (a : result value) : result value := rop1 PrimFloat.sqrt a.

(** A warning of [warnings.warn]: the threshold and the number of points above it. *)
Record warning := DistanceAbove { threshold : float; points : nat }.

Definition warn_distance (dist : value) (warn_distance_above_meter : float)
    : result (list warning) :=
  above ← dist >? warn_distance_above_meter;
  let idx := np_where above in
  Ok (if decide (0 < length idx)%nat
      then [DistanceAbove warn_distance_above_meter (length idx)] else []).

Definition latlon2dlatdlon (lat lon latR lonR : value)
    (warn_distance_above_meter : float)
    (kw_lon_conversion_factor kw_lat_conversion_factor : option float)
    : result (value * value * list warning) :=
  let lon_conversion_factor :=
    default (latlon2dxdy_lon_conversion_factor GPC) kw_lon_conversion_factor in
  let lat_conversion_factor :=
    default (latlon2dxdy_lat_conversion_factor GPC) kw_lat_conversion_factor in
  let* dlat := np_sin ((lat - latR) * deg2rad GPC) * lat_conversion_factor in
  let* dlon := np_cos (lat * deg2rad GPC) * np_sin ((lon - lonR) * deg2rad GPC)
         * lon_conversion_factor in
  let* dist := np_sqrt (dlat ** 2 + dlon ** 2) in
  w ← warn_distance dist warn_distance_above_meter;
  Ok (dlat, dlon, w).

Definition dlatdlon2dxdy (dlatS dlonS dlatM dlonM wind_direction : value)
    (warn_distance_above_meter : float)
    : result (value * value * list warning) :=
  let* dx := (dlatS - dlatM) * np_cos (wind_direction * deg2rad GPC)
       + (dlonS - dlonM) * np_sin (wind_direction * deg2rad GPC) in
  let* dy := (dlatS - dlatM) * np_sin (wind_direction * deg2rad GPC)
       - (dlonS - dlonM) * np_cos (wind_direction * deg2rad GPC) in
  let* dist := np_sqrt (dx ** 2 + dy ** 2) in
  w ← warn_distance dist warn_distance_above_meter;
  Ok (dx, dy, w).

Definition get_dispersion_constants (dispersion_mode : string) : result table :=
  dispersion_constants GPC dispersion_mode.

Definition get_molecule_properties (molecule : string) : result molecule_properties_t :=
  molecule_properties GPC molecule.


Definition calculate_concentration
    (qs wind_speed sigma_y sigma_z dy zr hs hm molecular_mass : value)
    : result value :=
  let* A := qs / (2 * numpy_pi * wind_speed * sigma_y * sigma_z) in
  let* B := np_exp (- dy ** 2 / (2 * sigma_y ** 2)) in
  let* C := 2 * sigma_z ** 2 in
  let* D := np_exp (- (zr - hs) ** 2 / C) in
  let* E := np_exp (- (zr + hs) ** 2 / C) in
  let* F := np_exp (- (zr - (2 * hm - hs)) ** 2 / C) in
  let* conc := liter_per_mole_air GPC * 1e6 * A * B * (D + E + F) / molecular_mass in
  Ok conc.

(** [if b:] for the result of a comparison. *)
Definition truth (b : bvalue) : result bool :=
  match b with
  | BNum b | BArr [b] => Ok b
  | BArr [] => Ok false
  | BArr _ => Raise AmbiguousTruth
  end.

(** [dispersion_constants[stability_index, col]] *)
Definition getitem2 (dispersion_constants : option table)
    (stability_index : ivalue) (col : Z) : result value :=
  match dispersion_constants with
  | None => Raise (TypeError NotSubscriptable)
  | Some C =>
      let cell i :=
        row ← of_option OutOfBounds (py_index C i);
        of_option OutOfBounds (py_index row col) in
      match stability_index with
      | IInt i => Num <$> cell i
      | IArr l => Arr <$> map_result cell l
      end
  end.

Definition calculate_sigma (dx z0 tc : obj) (dispersion_constants : option table)
    (stability_index : ivalue) (tc_minimum : float) (offset_sigma_z : obj)
    (kw_ca kw_cb : option float) : St (value * value) :=
  negative ← (let@ dxv := load dx in lift (dxv <? 0));
  (if np_any negative then
     let idx_nan := np_where negative in
     setitem dx idx_nan nan;;
     if is_ndarray tc then setitem tc idx_nan nan else mret ()
   else mret ());;
  tc ← (if is_ndarray tc then
          below ← (let@ tcv := load tc in lift (tcv <? tc_minimum));
          let idx := np_where below in
          setitem tc idx tc_minimum;;
          mret tc
        else
          below ← (let@ tcv := load tc in lift (b ← tcv <? tc_minimum; truth b));
          mret (if below : bool then OFloat tc_minimum else tc));
  let ca := default (sigma_ca GPC) kw_ca in
  let cb := default (sigma_cb GPC) kw_cb in
  let@ dx := load dx in
  let@ z0 := load z0 in
  let@ tc := load tc in
  let@ offset_sigma_z := load offset_sigma_z in
  lift (
    let* sigma_y := getitem2 dispersion_constants stability_index 0
                    * dx ** getitem2 dispersion_constants stability_index 1
                    * (z0 ** 0.2) * (tc ** 0.35) in
    let* sigma_z := getitem2 dispersion_constants stability_index 2
                    * dx ** getitem2 dispersion_constants stability_index 3
                    * (10 * z0) ** (ca * dx ** cb) + offset_sigma_z in
    Ok (sigma_y, sigma_z)).

End GPFunctions.

(** *** Stability classes *)

Definition stability_classes : list string := ["A"; "B"; "C"; "D"; "E"; "F"].

Definition stability_index2class (stability_index : ivalue) : result cvalue :=
  let lookup i := of_option OutOfBounds (py_index stability_classes i) in
  match stability_index with
  | IInt i =>
      if decide (0 ≤ i < 6)%Z
      then CNpStr <$> lookup i
      else Raise (IndexError ("stability_index is " +:+ pretty i +:+
             ", which is out of range, it has to be 0, 1, 2, 3, 4, or 5."))
  | IArr l =>
      if existsb (λ i, bool_decide (i < 0)%Z) l || existsb (λ i, bool_decide (5 < i)%Z) l
      then Raise (IndexError
             "stability_index is out of range, it has to be 0, 1, 2, 3, 4, or 5.")
      else CArr <$> map_result lookup l
  end.

(** [len(stability_class)] and [stability_class[ii]] in the array branch. *)
Definition class_len (stability_class : cvalue) : nat :=
  match stability_class with
  | CArr l => length l
  | CStr s | CNpStr s => String.length s
  end.
Definition class_item (stability_class : cvalue) (ii : nat) : result string :=
  match stability_class with
  | CArr l => of_option OutOfBounds (l !! ii)
  | CStr s | CNpStr s =>
      of_option (IndexError "string index out of range")
                ((λ c, String c EmptyString) <$> String.get ii s)
  end.

(** [numpy.where(stability_class == sc)[0]] *)
Definition where_equal (stability_class : cvalue) (sc : string) : list nat :=
  match stability_class with
  | CArr l => np_where (BArr ((λ s, bool_decide (s = sc)) <$> l))
  | CStr s | CNpStr s => np_where (BNum (bool_decide (s = sc)))
  end.

Definition class2index_body (stability_class : cvalue)
    (idx : list Z) (sc_i : nat) (sc : string) : result (list Z) :=
  let i := where_equal stability_class sc in
  idx ← (if decide (0 < length i) then set_items idx i (Z.of_nat sc_i) else Ok idx);
  let i := where_equal stability_class (lower sc) in
  if decide (0 < length i) then set_items idx i (Z.of_nat sc_i) else Ok idx.

Definition stability_class2index (stability_class : cvalue) : result ivalue :=
  match stability_class with
  | CStr s =>
      let idx := np_where (BArr ((λ sc, bool_decide (upper s = sc)) <$> stability_classes)) in
      if decide (length idx = 0)
      then Raise (ValueError ("stability_class " +:+ s +:+ " does not exist"))
      else Ok (IArr (Z.of_nat <$> idx))
  | _ =>
      let idx := replicate (class_len stability_class) (-1)%Z in
      idx ← for_enumerate (class2index_body stability_class) 0 stability_classes idx;
      let invalid := (λ i, bool_decide (i = -1)%Z) <$> idx in
      if existsb id invalid then
        let idx_invalid := np_where (BArr invalid) in
        if decide (length idx_invalid < 3) then
          s ← for_enumerate
                 (λ s _ ii, v ← class_item stability_class ii; Ok (s +:+ " " +:+ v))
                 0 idx_invalid "Invalid inputs for stability_class:";
          Raise (ValueError s)
        else Raise (ValueError (pretty (length idx_invalid) +:+
                                " invalid inputs for stability_class"))
      else Ok (IArr idx)
  end.

(** *** File names and paths *)

(** [pathlib] belongs to the standard library: the type [P] of its [Path]
    objects, the constructor from a string and [joinpath] are parameters.
    An entry of [filename] or [path] is a string, a [Path] object, or an
    object the constructor of [Path] refuses ([None], a number). *)
Inductive entry (P : Type) :=
| EStr (s : string)
| EPath (p : P)
| EOther.
Global Arguments EStr {P} s.
Global Arguments EPath {P} p.
Global Arguments EOther {P}.

(** The argument [filename] or [path]: [None], one entry, or a list. *)
Inductive names (P : Type) :=
| NNone
| NOne (e : entry P)
| NList (l : list (entry P)).
Global Arguments NNone {P}.
Global Arguments NOne {P} e.
Global Arguments NList {P} l.

Section Paths.
Context {P : Type} (Path : string → P) (joinpath : P → P → P).

(** [pathlib.Path(e)]; the constructor raises a [TypeError] for an object of
    a type it does not take. *)
Definition to_path (e : entry P) : result P :=
  match e with
  | EStr s => Ok (Path s)
  | EPath p => Ok p
  | EOther => Raise (TypeError BadOperand)
  end.

(** [p.joinpath(e)] *)
Definition joinpath_entry (p : P) (e : entry P) : result P :=
  q ← to_path e; Ok (joinpath p q).

(** The loop that turns the entries of [filename] into [Path] objects, in
    place. *)
Definition to_path_body (filename : list (entry P)) (f_i : nat) (fn : entry P)
    : result (list (entry P)) :=
  match fn with
  | EPath _ => Ok filename
  | _ => p ← to_path fn; Ok (<[f_i := EPath p]> filename)
  end.

(** The function returns its value together with the object passed as
    [filename] as the call leaves it: a list is converted in place. *)
Definition handle_filename_path (filename path : names P)
    : result (option (list (entry P)) * names P) :=
  match filename, path with
  | NNone, NNone => Ok (None, filename)
  | _, _ =>
      let files :=
        match filename with
        | NList l => l
        | NOne e => [e]
        | NNone => [EOther]
        end in
      files ← for_enumerate to_path_body 0 files files;
      let passed := match filename with NList _ => NList files | _ => filename end in
      match path with
      | NNone => Ok (Some files, passed)
      | NList path =>
          if decide (length files ≠ length path) then
            Raise (IndexError ("Length of filename (" +:+ pretty (length files) +:+
                               ") and path (" +:+ pretty (length path) +:+
                               ") is not the same."))
          else
            paf ← for_enumerate
                    (λ paf p_i p,
                       p ← to_path p;
                       f ← of_option OutOfBounds (files !! p_i);
                       r ← joinpath_entry p f;
                       Ok (paf ++ [EPath r]))
                    0 path [];
            Ok (Some paf, passed)
      | NOne path =>
          path ← to_path path;
          paf ← for_enumerate
                  (λ paf f_i f, r ← joinpath_entry path f; Ok (paf ++ [EPath r]))
                  0 files [];
          Ok (Some paf, passed)
      end
  end.

End Paths.

End GPF.

(** ** Calling a Python function *)

Module Call.

(** An argument of a call, as far as the code at hand passes them. *)
Inductive arg :=
| ASelf                (* the instance itself *)
| AInt (z : Z)
| AStr (s : string)
| ANone.

(** Binding the arguments of a call [f(a1, ..., an, k1 = v1, ..)] to the
    parameters of [def f(p1, ..., pm)] (after [self], for a method), in the
    interpreter's order: the positional arguments fill the first
    parameters; the keywords are taken in turn, an unknown one or one whose
    parameter is already filled raising; then too many positional arguments
    raise; then a parameter left without a value takes its default or
    raises.  [params] lists the parameters, each with its default when it
    has one; the result maps every parameter to its value. *)
Definition bind_arguments (params : list (string * option arg))
    (positional : list arg) (keywords : list (string * arg))
    : result (list (string * arg)) :=
  let names := params.*1 in
  let by_position := zip names positional in
  match list_find (λ k, k ∉ names ∨ k ∈ by_position.*1) keywords.*1 with
  | Some (_, k) =>
      if decide (k ∈ names) then Raise (TypeError (MultipleValues k))
      else Raise (TypeError (UnexpectedKeyword k))
  | None =>
    if decide (length names < length positional) then Raise (TypeError TooManyPositional)
    else
      let given := by_position ++ keywords in
      map_result (λ p : string * option arg,
              match list_find (λ g : string * arg, g.1 = p.1) given, p.2 with
              | Some (_, g), _ => Ok g
              | None, Some d => Ok (p.1, d)
              | None, None => Raise (TypeError (MissingArgument p.1))
              end) params
  end.

Definition call {A} (params : list (string * option arg))
    (body : list (string * arg) → result A)
    (positional : list arg) (keywords : list (string * arg)) : result A :=
  env ← bind_arguments params positional keywords; body env.

(** The value bound to a parameter. *)
Definition parameter (env : list (string * arg)) (p : string) : arg :=
  match list_find (λ g : string * arg, g.1 = p) env with
  | Some (_, g) => g.2
  | None => ANone
  end.

End Call.

(** ** GPSource.py *)

Module Source.

(** [GPMolecule.Molecule], as far as [Source] reads it. *)
Record Molecule := { name : string; molecular_mass : float }.

Record t := {
  verbose : Z;
  source_id : Z;
  molecule : Molecule;
  label : string;
  dx : obj; dy : obj;
  dlatS : obj; dlonS : obj; dlatM : obj; dlonM : obj;
  latS : obj; lonS : obj; latR : obj; lonR : obj; latM : obj; lonM : obj;
  wind_direction : obj; wind_speed : obj;
  qs : obj; hs : obj; hm : obj; z0 : obj; zr : obj;
  offset_sigma_z : obj;
  dispersion_mode : option string;
  dispersion_constants : option table;
  tc : obj;
  sigma_y : obj; sigma_z : obj;
  _stability_index : option ivalue;
  _stability_class : option cvalue
}.

(** [Source(source_id, molecule, verbose)] without keyword arguments:
    every optional attribute is [None]. *)
Definition init (source_id : Z) (molecule : Molecule) (verbose : Z) : t :=
  {| verbose := verbose; source_id := source_id; molecule := molecule;
     label := pretty source_id +:+ " " +:+ name molecule;
     dx := ONone; dy := ONone;
     dlatS := ONone; dlonS := ONone; dlatM := ONone; dlonM := ONone;
     latS := ONone; lonS := ONone; latR := ONone; lonR := ONone;
     latM := ONone; lonM := ONone;
     wind_direction := ONone; wind_speed := ONone;
     qs := ONone; hs := ONone; hm := ONone; z0 := ONone; zr := ONone;
     offset_sigma_z := ONone; dispersion_mode := None;
     dispersion_constants := None; tc := ONone;
     sigma_y := ONone; sigma_z := ONone;
     _stability_index := None; _stability_class := None |}.

(** [self.dlatS, self.dlonS = a, b] and its siblings. *)
Definition set_dlatS_dlonS (self : t) (a b : obj) : t :=
  {| verbose := verbose self; source_id := source_id self; molecule := molecule self;
     label := label self; dx := dx self; dy := dy self;
     dlatS := a; dlonS := b; dlatM := dlatM self; dlonM := dlonM self;
     latS := latS self; lonS := lonS self; latR := latR self; lonR := lonR self;
     latM := latM self; lonM := lonM self;
     wind_direction := wind_direction self; wind_speed := wind_speed self;
     qs := qs self; hs := hs self; hm := hm self; z0 := z0 self; zr := zr self;
     offset_sigma_z := offset_sigma_z self; dispersion_mode := dispersion_mode self;
     dispersion_constants := dispersion_constants self; tc := tc self;
     sigma_y := sigma_y self; sigma_z := sigma_z self;
     _stability_index := _stability_index self;
     _stability_class := _stability_class self |}.

Definition set_dlatM_dlonM (self : t) (a b : obj) : t :=
  {| verbose := verbose self; source_id := source_id self; molecule := molecule self;
     label := label self; dx := dx self; dy := dy self;
     dlatS := dlatS self; dlonS := dlonS self; dlatM := a; dlonM := b;
     latS := latS self; lonS := lonS self; latR := latR self; lonR := lonR self;
     latM := latM self; lonM := lonM self;
     wind_direction := wind_direction self; wind_speed := wind_speed self;
     qs := qs self; hs := hs self; hm := hm self; z0 := z0 self; zr := zr self;
     offset_sigma_z := offset_sigma_z self; dispersion_mode := dispersion_mode self;
     dispersion_constants := dispersion_constants self; tc := tc self;
     sigma_y := sigma_y self; sigma_z := sigma_z self;
     _stability_index := _stability_index self;
     _stability_class := _stability_class self |}.

Definition set_dx_dy (self : t) (a b : obj) : t :=
  {| verbose := verbose self; source_id := source_id self; molecule := molecule self;
     label := label self; dx := a; dy := b;
     dlatS := dlatS self; dlonS := dlonS self; dlatM := dlatM self; dlonM := dlonM self;
     latS := latS self; lonS := lonS self; latR := latR self; lonR := lonR self;
     latM := latM self; lonM := lonM self;
     wind_direction := wind_direction self; wind_speed := wind_speed self;
     qs := qs self; hs := hs self; hm := hm self; z0 := z0 self; zr := zr self;
     offset_sigma_z := offset_sigma_z self; dispersion_mode := dispersion_mode self;
     dispersion_constants := dispersion_constants self; tc := tc self;
     sigma_y := sigma_y self; sigma_z := sigma_z self;
     _stability_index := _stability_index self;
     _stability_class := _stability_class self |}.



(** [o is None] *)
Definition is_None (o : obj) : bool :=
  match o with ONone => true | _ => false end.

Definition raise {A} (e : exn) : St A := lift (Raise e).

(** The default of [warn_distance_above_meter]. *)
Definition warn_default : float := 100000%float.

Section Methods.
Context (L : libm) (GPC : GPConstants).

(** The message of the [ValueError] for missing location data: the fields
    among [fields] that are [None], in order. *)
Definition no_location_data (fields : list (string * obj)) : string :=
  foldl (λ error_string f,
           if is_None f.2 then error_string +:+ " " +:+ f.1 +:+ ", " else error_string)
        "GPSource.calculate_dxdy(): no location data for: " fields.

(** A method returns its return value and the instance as it leaves it. *)
Definition calculate_dxdy (self : t) : St (value * t) :=
  if negb (is_None (dx self)) && negb (is_None (dy self)) then
    mret (VNone, self)
  else
    self ← (if is_None (dlatS self) || is_None (dlonS self) then
              if negb (is_None (latS self)) && negb (is_None (lonS self))
                 && negb (is_None (latR self)) && negb (is_None (lonR self)) then
                let@ lat := load (latS self) in
                let@ lon := load (lonS self) in
                let@ latR := load (latR self) in
                let@ lonR := load (lonR self) in
                '(a, b, _) ← lift (GPF.latlon2dlatdlon L GPC lat lon latR lonR
                                     warn_default None None);
                a ← alloc a; b ← alloc b;
                mret (set_dlatS_dlonS self a b)
              else
                raise (ValueError (no_location_data
                  [("dlatS", dlatS self); ("dlonS", dlonS self); ("latS", latS self);
                   ("lonS", lonS self); ("latR", latR self); ("lonR", lonR self)]))
            else mret self);
    self ← (if is_None (dlatM self) || is_None (dlonM self) then
              if negb (is_None (latM self)) && negb (is_None (lonM self))
                 && negb (is_None (latR self)) && negb (is_None (lonR self)) then
                let@ lat := load (latM self) in
                let@ lon := load (lonM self) in
                let@ latR := load (latR self) in
                let@ lonR := load (lonR self) in
                '(a, b, _) ← lift (GPF.latlon2dlatdlon L GPC lat lon latR lonR
                                     warn_default None None);
                a ← alloc a; b ← alloc b;
                mret (set_dlatM_dlonM self a b)
              else
                raise (ValueError (no_location_data
                  [("dlatM", dlatM self); ("dlonM", dlonM self); ("latM", latM self);
                   ("lonM", lonM self); ("latR", latR self); ("lonR", lonR self)]))
            else mret self);
    if is_None (wind_direction self) then
      raise (ValueError "GPSource.calculate_dxdy(): no data for wind_direction")
    else
      let@ dlatS := load (dlatS self) in
      let@ dlonS := load (dlonS self) in
      let@ dlatM := load (dlatM self) in
      let@ dlonM := load (dlonM self) in
      let@ wind_direction := load (wind_direction self) in
      '(a, b, _) ← lift (GPF.dlatdlon2dxdy L GPC dlatS dlonS dlatM dlonM wind_direction
                           warn_default);
      a ← alloc a; b ← alloc b;
      mret (VNone, set_dx_dy self a b).


Definition calculate_concentration (self : t) : St (value * t) :=
  let@ qs := load (qs self) in
  let@ wind_speed := load (wind_speed self) in
  let@ sigma_y := load (sigma_y self) in
  let@ sigma_z := load (sigma_z self) in
  let@ dy := load (dy self) in
  let@ zr := load (zr self) in
  let@ hs := load (hs self) in
  let@ hm := load (hm self) in
  (lift (GPF.calculate_concentration L GPC qs wind_speed sigma_y sigma_z dy zr hs hm
           (Num (molecular_mass (molecule self)))));;
  mret (VNone, self).

End Methods.
(** *** The stability properties and the constructor *)

Definition set__stability_index (self : t) (v : option ivalue) : t :=
  {| verbose := verbose self; source_id := source_id self; molecule := molecule self;
     label := label self; dx := dx self; dy := dy self;
     dlatS := dlatS self; dlonS := dlonS self; dlatM := dlatM self; dlonM := dlonM self;
     latS := latS self; lonS := lonS self; latR := latR self; lonR := lonR self;
     latM := latM self; lonM := lonM self;
     wind_direction := wind_direction self; wind_speed := wind_speed self;
     qs := qs self; hs := hs self; hm := hm self; z0 := z0 self; zr := zr self;
     offset_sigma_z := offset_sigma_z self; dispersion_mode := dispersion_mode self;
     dispersion_constants := dispersion_constants self; tc := tc self;
     sigma_y := sigma_y self; sigma_z := sigma_z self;
     _stability_index := v;
     _stability_class := _stability_class self |}.

Definition set__stability_class (self : t) (v : option cvalue) : t :=
  {| verbose := verbose self; source_id := source_id self; molecule := molecule self;
     label := label self; dx := dx self; dy := dy self;
     dlatS := dlatS self; dlonS := dlonS self; dlatM := dlatM self; dlonM := dlonM self;
     latS := latS self; lonS := lonS self; latR := latR self; lonR := lonR self;
     latM := latM self; lonM := lonM self;
     wind_direction := wind_direction self; wind_speed := wind_speed self;
     qs := qs self; hs := hs self; hm := hm self; z0 := z0 self; zr := zr self;
     offset_sigma_z := offset_sigma_z self; dispersion_mode := dispersion_mode self;
     dispersion_constants := dispersion_constants self; tc := tc self;
     sigma_y := sigma_y self; sigma_z := sigma_z self;
     _stability_index := _stability_index self;
     _stability_class := v |}.

(** The setters of the properties [stability_index] and [stability_class].
    An assignment returns the instance as it leaves it, also when the
    conversion raises. *)
Definition stability_index_setter (self : t) (value : ivalue) : result () * t :=
  let self := set__stability_index self (Some value) in
  match GPF.stability_index2class value with
  | Ok c => (Ok (), set__stability_class self (Some c))
  | Raise e => (Raise e, self)
  end.

Definition stability_class_setter (self : t) (value : cvalue) : result () * t :=
  let self := set__stability_class self (Some value) in
  match GPF.stability_class2index value with
  | Ok i => (Ok (), set__stability_index self (Some i))
  | Raise e => (Raise e, self)
  end.

(** The keyword arguments of the constructor.  For the keys read with
    [kwargs.get(key, None)] a missing key and [None] are the same; the keys
    [stability_index] and [stability_class] are tested for presence. *)
Record kwargs := {
  kw_label : option string;
  kw_dx : obj; kw_dy : obj;
  kw_dlatS : obj; kw_dlonS : obj; kw_dlatM : obj; kw_dlonM : obj;
  kw_latS : obj; kw_lonS : obj; kw_latR : obj; kw_lonR : obj;
  kw_latM : obj; kw_lonM : obj;
  kw_wind_direction : obj; kw_wind_speed : obj;
  kw_qs : obj; kw_hs : obj; kw_hm : obj; kw_z0 : obj; kw_zr : obj;
  kw_offset_sigma_z : obj;
  kw_dispersion_mode : option string;
  kw_dispersion_constants : option table;
  kw_tc : obj;
  kw_sigma_y : obj; kw_sigma_z : obj;
  kw_stability_index : option ivalue;
  kw_stability_class : option cvalue
}.

(** [Source(source_id, molecule, verbose, **kwargs)] for a [molecule] that
    is a [Molecule] object. *)
Definition __init__ (source_id : Z) (molecule : Molecule) (verbose : Z) (kw : kwargs)
    : result t :=
  let self :=
    {| verbose := verbose; source_id := source_id; molecule := molecule;
       label := default (pretty source_id +:+ " " +:+ name molecule) (kw_label kw);
       dx := kw_dx kw; dy := kw_dy kw;
       dlatS := kw_dlatS kw; dlonS := kw_dlonS kw;
       dlatM := kw_dlatM kw; dlonM := kw_dlonM kw;
       latS := kw_latS kw; lonS := kw_lonS kw; latR := kw_latR kw; lonR := kw_lonR kw;
       latM := kw_latM kw; lonM := kw_lonM kw;
       wind_direction := kw_wind_direction kw; wind_speed := kw_wind_speed kw;
       qs := kw_qs kw; hs := kw_hs kw; hm := kw_hm kw; z0 := kw_z0 kw; zr := kw_zr kw;
       offset_sigma_z := kw_offset_sigma_z kw;
       dispersion_mode := kw_dispersion_mode kw;
       dispersion_constants := kw_dispersion_constants kw;
       tc := kw_tc kw;
       sigma_y := kw_sigma_y kw; sigma_z := kw_sigma_z kw;
       _stability_index := None; _stability_class := None |} in
  self ← match kw_stability_index kw with
         | Some value =>
             let '(r, self) := stability_index_setter self value in r;; Ok self
         | None => Ok self
         end;
  match kw_stability_class kw with
  | Some value =>
      let '(r, self) := stability_class_setter self value in r;; Ok self
  | None => Ok self
  end.

(** A call without keyword arguments. *)
Definition no_kwargs : kwargs :=
  {| kw_label := None; kw_dx := ONone; kw_dy := ONone;
     kw_dlatS := ONone; kw_dlonS := ONone; kw_dlatM := ONone; kw_dlonM := ONone;
     kw_latS := ONone; kw_lonS := ONone; kw_latR := ONone; kw_lonR := ONone;
     kw_latM := ONone; kw_lonM := ONone;
     kw_wind_direction := ONone; kw_wind_speed := ONone;
     kw_qs := ONone; kw_hs := ONone; kw_hm := ONone; kw_z0 := ONone; kw_zr := ONone;
     kw_offset_sigma_z := ONone; kw_dispersion_mode := None;
     kw_dispersion_constants := None; kw_tc := ONone;
     kw_sigma_y := ONone; kw_sigma_z := ONone;
     kw_stability_index := None; kw_stability_class := None |}.


End Source.

(** ** GPPlumeModel.py *)

Module Plume.

(** A [pandas.DataFrame] with float columns: the columns in order, each a
    name and its values. *)
Definition DataFrame := list (string * list float).

(** [df.columns] *)
Definition columns (df : DataFrame) : list string := df.*1.

(** [df.loc[:, column]] *)
Definition loc_column (df : DataFrame) (column : string) : result value :=
  match list_find (λ c, c.1 = column) df with
  | Some (_, c) => Ok (Arr c.2)
  | None => Raise (KeyError column)
  end.

Definition nrows (df : DataFrame) : nat :=
  match df with [] => 0 | c :: _ => length c.2 end.

(** [df.insert(loc, column, value)] *)
Definition insert (df : DataFrame) (loc : nat) (column : string) (v : value)
    : result DataFrame :=
  if decide (column ∈ columns df) then
    Raise (ValueError ("cannot insert " +:+ column +:+ ", already exists"))
  else if decide (length df < loc) then Raise OutOfBounds
  else match v with
  | VNone => Raise (TypeError BadOperand)
  | Num x => Ok (take loc df ++ (column, replicate (nrows df) x) :: drop loc df)
  | Arr xs =>
      if decide (df ≠ [] ∧ length xs ≠ nrows df)
      then Raise (ValueError "Length of values does not match length of index")
      else Ok (take loc df ++ (column, xs) :: drop loc df)
  end.

(** The attributes of a [Plume] that the concentration chain reads; the
    file names and paths of the importer are left out. *)
Record t := {
  verbose : Z;
  df : option DataFrame;
  dispersion_constants : option table;
  molecules : option (list string);
  molecular_properties : option (list molecule_properties_t);
  molecular_mass : option (list float);
  mode : option string
}.

Definition set_df (self : t) (d : DataFrame) : t :=
  {| verbose := verbose self; df := Some d;
     dispersion_constants := dispersion_constants self; molecules := molecules self;
     molecular_properties := molecular_properties self;
     molecular_mass := molecular_mass self; mode := mode self |}.

Definition set_dispersion_constants (self : t) (c : table) : t :=
  {| verbose := verbose self; df := df self;
     dispersion_constants := Some c; molecules := molecules self;
     molecular_properties := molecular_properties self;
     molecular_mass := molecular_mass self; mode := mode self |}.

Definition set_molecular (self : t) (props : list molecule_properties_t)
    (mass : list float) : t :=
  {| verbose := verbose self; df := df self;
     dispersion_constants := dispersion_constants self; molecules := molecules self;
     molecular_properties := Some props;
     molecular_mass := Some mass; mode := mode self |}.

(** [self.df.columns]: the attribute access fails on [None]. *)
Definition get_df (self : t) : result DataFrame :=
  of_option (AttributeError "columns") (df self).

Section Methods.
Context (L : libm) (GPC : GPConstants).

(** The parameters after [self] of every [calculate_concentration_*]
    method: [verbose = 0]. *)
Definition method_params : list (string * option Call.arg) :=
  [("verbose", Some (Call.AInt 0))].

(** [GPFunctions.get_dispersion_constants(dispersion_mode, verbose = 0)] as
    a callee. *)
Definition get_dispersion_constants_params : list (string * option Call.arg) :=
  [("dispersion_mode", None); ("verbose", Some (Call.AInt 0))].
Definition get_dispersion_constants_body (env : list (string * Call.arg))
    : result table :=
  match Call.parameter env "dispersion_mode" with
  | Call.AStr m => GPF.get_dispersion_constants GPC m
  | _ => Raise (TypeError BadOperand)
  end.

(** [verbose = GPF.print_vars(.., verbose = verbose, self_verbose = self.verbose)] *)
Definition print_vars (verbose self_verbose : Z) : Z :=
  if decide (verbose < self_verbose)%Z then self_verbose else verbose.

Definition calculate_concentration_prepare_dxdy (self : t)
    (env : list (string * Call.arg)) : result (value * t) :=
  d ← get_df self;
  let cn := columns d in
  if bool_decide ("dx" ∉ cn) || bool_decide ("dy" ∉ cn) then
    if bool_decide ("latS" ∈ cn) && bool_decide ("lonS" ∈ cn)
       && bool_decide ("latM" ∈ cn) && bool_decide ("lonM" ∈ cn)
       && bool_decide ("latR" ∈ cn) && bool_decide ("lonR" ∈ cn)
       && bool_decide ("wind_direction" ∈ cn) then
      let* latM := loc_column d "latM" in
      let* lonM := loc_column d "lonM" in
      let* latR := loc_column d "latR" in
      let* lonR := loc_column d "lonR" in
      '(dlatM, dlonM, _) ← GPF.latlon2dlatdlon L GPC latM lonM latR lonR
                              Source.warn_default None None;
      let* latS := loc_column d "latS" in
      let* lonS := loc_column d "lonS" in
      let* latR := loc_column d "latR" in
      let* lonR := loc_column d "lonR" in
      '(dlatS, dlonS, _) ← GPF.latlon2dlatdlon L GPC latS lonS latR lonR
                              Source.warn_default None None;
      let* wind_direction := loc_column d "wind_direction" in
      '(dx, dy, _) ← GPF.dlatdlon2dxdy L GPC dlatS dlonS dlatM dlonM wind_direction
                        Source.warn_default;
      let idx := length (columns d) in
      d ← insert d idx "dy" dy;
      d ← insert d idx "dx" dx;
      Ok (VNone, set_df self d)
    else Raise (ValueError EmptyString)
  else Ok (VNone, self).

Definition calculate_concentration_prepare_tc (self : t)
    (env : list (string * Call.arg)) : result (value * t) :=
  d ← get_df self;
  let cn := columns d in
  if bool_decide ("tc" ∉ cn) then
    if bool_decide ("dx" ∈ cn) && bool_decide ("wind_speed" ∈ cn) then
      (* GPF.calculate_Tc: the module defines calculate_tc only *)
      Raise (AttributeError "calculate_Tc")
    else Raise (ValueError EmptyString)
  else Ok (VNone, self).

Definition calculate_concentration_prepare_dispersion_constants (self : t)
    (env : list (string * Call.arg)) : result (value * t) :=
  match dispersion_constants self with
  | None =>
      match mode self with
      | Some m =>
          c ← Call.call get_dispersion_constants_params get_dispersion_constants_body
                 [] [("mode", Call.AStr m); ("verbose", Call.parameter env "verbose")];
          Ok (VNone, set_dispersion_constants self c)
      | None => Raise (ValueError EmptyString)
      end
  | Some _ => Ok (VNone, self)
  end.

Definition calculate_concentration_get_molecular_properties (self : t)
    (env : list (string * Call.arg)) : result (value * t) :=
  match molecules self with
  | None | Some [] => Raise (ValueError EmptyString)
  | Some ms =>
      match molecular_mass self with
      | None =>
          props ← map_result (GPF.get_molecule_properties GPC) ms;
          Ok (VNone, set_molecular self props (get_molecular_mass <$> props))
      | Some _ => Ok (VNone, self)
      end
  end.

(** The calls are bound as they are written: the first passes [verbose]
    by keyword only, the other three pass the instance by position as well. *)
Definition calculate_concentration (self : t) (env : list (string * Call.arg))
    : result (value * t) :=
  let verbose :=
    match Call.parameter env "verbose" with
    | Call.AInt v => Call.AInt (print_vars v (verbose self))
    | a => a
    end in
  '(_, self) ← Call.call method_params (calculate_concentration_prepare_dxdy self)
                 [] [("verbose", verbose)];
  '(_, self) ← Call.call method_params (calculate_concentration_prepare_tc self)
                 [Call.ASelf] [("verbose", verbose)];
  '(_, self) ← Call.call method_params
                 (calculate_concentration_prepare_dispersion_constants self)
                 [Call.ASelf] [("verbose", verbose)];
  '(_, self) ← Call.call method_params
                 (calculate_concentration_get_molecular_properties self)
                 [Call.ASelf] [("verbose", verbose)];
  Ok (VNone, self).

End Methods.
(** *** The molecules of the imported data *)

Definition set_molecules (self : t) (ms : list string) : t :=
  {| verbose := verbose self; df := df self;
     dispersion_constants := dispersion_constants self; molecules := Some ms;
     molecular_properties := molecular_properties self;
     molecular_mass := molecular_mass self; mode := mode self |}.

(** The closing loop of [import_data], which runs over the columns of the
    data frame the method has stored: a column that names an implemented
    molecule is appended to [self.molecules]. *)
Definition import_data_molecules (GPC : GPConstants) (self : t) : result t :=
  d ← get_df self;
  Ok (foldl (λ self col_name,
               if decide (col_name ∈ implemented_molecules GPC) then
                 match molecules self with
                 | None => set_molecules self [col_name]
                 | Some ms => set_molecules self (ms ++ [col_name])
                 end
               else self)
            self (columns d)).

(** *** The constructor *)

Section Constructor.
Context {P : Type} (Path : string → P) (joinpath : P → P → P).

(** A [Plume] with the attributes the concentration chain does not read:
    the file names and paths, and the stability attributes, which exist
    only once a setter has run ([None]: no such attribute). *)
Record instance := {
  attributes : t;
  parameter_filename : GPF.names P;
  parameter_path : GPF.names P;
  parameter_paf : option (list (GPF.entry P));
  measurement_filename : GPF.names P;
  measurement_path : GPF.names P;
  measurement_paf : option (list (GPF.entry P));
  _stability_index : option ivalue;
  _stability_class : option cvalue
}.

Definition set_stability (self : instance) (i : option ivalue) (c : option cvalue)
    : instance :=
  {| attributes := attributes self;
     parameter_filename := parameter_filename self;
     parameter_path := parameter_path self;
     parameter_paf := parameter_paf self;
     measurement_filename := measurement_filename self;
     measurement_path := measurement_path self;
     measurement_paf := measurement_paf self;
     _stability_index := i; _stability_class := c |}.

(** The setters of the properties [stability_index] and [stability_class];
    an assignment returns the instance as it leaves it. *)
Definition stability_index_setter (self : instance) (value : ivalue)
    : result () * instance :=
  let self := set_stability self (Some value) (_stability_class self) in
  match GPF.stability_index2class value with
  | Ok c => (Ok (), set_stability self (_stability_index self) (Some c))
  | Raise e => (Raise e, self)
  end.

Definition stability_class_setter (self : instance) (value : cvalue)
    : result () * instance :=
  let self := set_stability self (_stability_index self) (Some value) in
  match GPF.stability_class2index value with
  | Ok i => (Ok (), set_stability self (Some i) (_stability_class self))
  | Raise e => (Raise e, self)
  end.

(** The keyword arguments of the constructor, by their keys. *)
Record kwargs := {
  kw_df : option DataFrame;
  kw_parameter_filename : GPF.names P;
  kw_parameter_path : GPF.names P;
  kw_measurement_filename : GPF.names P;
  kw_measurement_path : GPF.names P;
  kw_dispersion_constants : option table;
  kw_molecules : option (list string);
  kw_molecules_properties : option (list molecule_properties_t);
  kw_molecular_mass : option (list float);
  kw_mode : option string;
  kw_stability_index : option ivalue;
  kw_stability_class : option cvalue
}.


(** [Plume(verbose, **kwargs)] *)
Definition __init__ (verbose : Z) (kw : kwargs) : result instance :=
  '(parameter_paf, parameter_filename) ←
     GPF.handle_filename_path Path joinpath (kw_parameter_filename kw) (kw_parameter_path kw);
  '(measurement_paf, measurement_filename) ←
     GPF.handle_filename_path Path joinpath (kw_measurement_filename kw)
       (kw_measurement_path kw);
  let self :=
    {| attributes :=
         {| verbose := verbose; df := kw_df kw;
            dispersion_constants := kw_dispersion_constants kw;
            molecules := kw_molecules kw;
            molecular_properties := kw_molecules_properties kw;
            molecular_mass := kw_molecular_mass kw;
            mode := kw_mode kw |};
       parameter_filename := parameter_filename;
       parameter_path := kw_parameter_path kw;
       parameter_paf := parameter_paf;
       measurement_filename := measurement_filename;
       measurement_path := kw_measurement_path kw;
       measurement_paf := measurement_paf;
       _stability_index := None; _stability_class := None |} in
  match kw_stability_index kw, kw_stability_class kw with
  | Some value, _ => let '(r, self) := stability_index_setter self value in r;; Ok self
  | None, Some value => let '(r, self) := stability_class_setter self value in r;; Ok self
  | None, None => Ok self
  end.

End Constructor.

End Plume.

(** ** GPImportMeasurementParameters.py *)

Module Parameters.

(** [s.split(sep)] for a separator of one character. *)
Fixpoint split (sep : ascii) (s : string) : list string :=
  match s with
  | EmptyString => [EmptyString]
  | String c s =>
      if decide (c = sep) then EmptyString :: split sep s
      else match split sep s with
           | w :: ws => String c w :: ws
           | [] => [String c EmptyString]
           end
  end.

(** White space as [str.strip()] reads it, among the ASCII characters:
    tab, line feed, vertical tab, form feed, carriage return, the four
    separators [0x1c] to [0x1f], and the space. *)
Definition is_space (c : ascii) : bool :=
  let n := nat_of_ascii c in
  bool_decide (9 ≤ n ≤ 13) || bool_decide (28 ≤ n ≤ 32).

Fixpoint lstrip (s : string) : string :=
  match s with
  | EmptyString => EmptyString
  | String c s' => if is_space c then lstrip s' else s
  end.

Fixpoint rstrip (s : string) : string :=
  match s with
  | EmptyString => EmptyString
  | String c s' =>
      match rstrip s' with
      | EmptyString => if is_space c then EmptyString else String c EmptyString
      | t => String c t
      end
  end.

(** [s.strip()] *)
Definition strip (s : string) : string := rstrip (lstrip s).

(** An argument of the calls in this module. *)
Inductive pyarg :=
| PStr (s : string)
| PDict (d : gmap string string)
| PList (l : list string).

(** Binding positional arguments to parameters none of which has a
    default; the result pairs every parameter with its argument. *)
Definition bind_positional (params : list string) (args : list pyarg)
    : result (list (string * pyarg)) :=
  if decide (length params < length args) then Raise (TypeError TooManyPositional)
  else match drop (length args) params with
       | [] => Ok (zip params args)
       | p :: _ => Raise (TypeError (MissingArgument p))
       end.

(** The body of [parse_lines_txt(line, parameters, array)] for a string and
    a dictionary; it returns the dictionary as it leaves it.  [array] is not
    used. *)
Definition parse_lines_txt (line : string) (parameters : gmap string string)
    (array : pyarg) : result (gmap string string) :=
  match split ":" line with
  | [key; value] =>
      let key := strip key in
      let value := strip value in
      Ok (<[key := value]> parameters)
  | [] | [_] => Raise (ValueError "not enough values to unpack (expected 2, got 1)")
  | _ => Raise (ValueError "too many values to unpack (expected 2)")
  end.

Definition parse_lines_txt_params : list string := ["line"; "parameters"; "array"].

Definition parse_lines_txt_body (env : list (string * pyarg))
    : result (gmap string string) :=
  match env with
  | [(_, PStr line); (_, PDict parameters); (_, array)] =>
      parse_lines_txt line parameters array
  | _ => Raise (TypeError BadOperand)
  end.

(** The body of [for x in l], threading the loop state. *)
Fixpoint for_in {A St} (body : St → A → result St) (l : list A) (s : St) : result St :=
  match l with
  | [] => Ok s
  | x :: l => s ← body s x; for_in body l s
  end.

(** [import_measurement_parameters_txt(paf)] for a file that holds the lines
    [lines]: every line is handed to [parse_lines_txt] with the dictionary,
    and the dictionary is printed. *)
Definition import_measurement_parameters_txt (lines : list string) : result () :=
  let parameters : gmap string string := ∅ in
  let array : list string := [] in
  parameters ← for_in (λ parameters line,
                  env ← bind_positional parse_lines_txt_params
                          [PStr line; PDict parameters];
                  parse_lines_txt_body env)
                lines parameters;
  Ok ().

End Parameters.

(** ** Reading results element by element *)

(** Element [k] of a value; a scalar stands for every position. *)
Definition get (v : value) (k : nat) : float :=
  match v with
  | VNone => nan
  | Num x => x
  | Arr xs => default nan (xs !! k)
  end.

(** A number, or an array of length [n]. *)
Definition shaped (n : nat) (v : value) : Prop :=
  match v with
  | VNone => False
  | Num _ => True
  | Arr xs => length xs = n
  end.

(** The computation returns, its value fits the length [n], and its
    element [k] is [g k]. *)
Definition pointwise (n : nat) (r : result value) (g : nat → float) : Prop :=
  ∃ v, r = Ok v ∧ shaped n v ∧ ∀ k, k < n → get v k = g k.

(** ** The formulas of the specification, on single numbers *)

Module Spec.
Section Formulas.
Context (L : libm) (GPC : GPConstants).
Local Open Scope float_scope.




Definition dNorth (R_lat lat latRef : float) : float :=
  libm_sin L ((lat - latRef) * deg2rad GPC) * R_lat.

Definition dEast (R_lon lat lon lonRef : float) : float :=
  libm_cos L (lat * deg2rad GPC) * libm_sin L ((lon - lonRef) * deg2rad GPC) * R_lon.

Definition sigma_y (Cy0 Cy1 dx z0 tc : float) : float :=
  Cy0 * libm_pow L dx Cy1 * libm_pow L z0 0.2 * libm_pow L tc 0.35.

Definition sigma_z (Cz2 Cz3 ca cb offsetSigmaZ dx z0 : float) : float :=
  Cz2 * libm_pow L dx Cz3 * libm_pow L (10 * z0) (ca * libm_pow L dx cb) + offsetSigmaZ.

End Formulas.
End Spec.

(** ** Properties assumed of the C library where a statement needs them *)

Module Libm.
Local Open Scope float_scope.

(** [pow(-x, 2) = pow(x, 2)] *)
Definition pow_even (L : libm) : Prop :=
  ∀ x, libm_pow L (- x) 2 = libm_pow L x 2.

(** [sin(+0) = +0] and [sin(-0) = -0] *)
Definition sin_zero (L : libm) : Prop :=
  libm_sin L 0 = 0 ∧ libm_sin L (-0) = -0.

(** [sin(NaN)] is NaN *)
Definition sin_nan (L : libm) : Prop := libm_sin L nan = nan.

(** Exact cases of [pow]: not-a-number squared is not-a-number, [(-3)^2] is
    [9], and [1^y] is [1]. *)
Definition pow_cases (L : libm) : Prop :=
  libm_pow L nan 2 = nan ∧ libm_pow L (-3) 2 = 9 ∧ ∀ y, libm_pow L 1 y = 1.

(** [cos] of a finite number is finite *)
Definition cos_finite (L : libm) : Prop :=
  ∀ x, is_finite x = true → is_finite (libm_cos L x) = true.

(** An executable stand-in (first-order approximations around zero, the
    square exact), for running the definitions on concrete inputs. *)
Definition small : libm := {|
  libm_exp := λ x, 1 + x;
  libm_sin := λ x, x;
  libm_cos := λ _, 1;
  libm_pow := λ x y, if y =? 2 then x * x else if x =? 1 then 1 else abs x
|}.

End Libm.

(** Sample constants for running the definitions; the table is the one the
    tests of the repository expect for the mode [nogepa]. *)
Definition nogepa : table :=
  [ [1.36;  0.866; 0.23; 0.85];
    [0.768; 0.897; 0.22; 0.8];
    [0.47;  0.907; 0.2;  0.76];
    [0.359; 0.902; 0.15; 0.73];
    [0.238; 0.902; 0.12; 0.67];
    [0.2;   0.902; 0.1;  0.62] ]%float.

Definition GPC_sample : GPConstants := {|
  deg2rad := 0x1.1df46a2529d39p-6%float;
  latlon2dxdy_lon_conversion_factor := 6378137%float;
  latlon2dxdy_lat_conversion_factor := 6356752%float;
  liter_per_mole_air := 22.36%float;
  sigma_ca := 0.53%float;
  sigma_cb := (-0.22)%float;
  dispersion_constants := λ m,
    if decide (m = "nogepa") then Ok nogepa else Raise (ValueError m);
  molecule_properties := λ m,
    if decide (m = "no")
    then Ok {| formula := "NO"; nice_name := "NO"; molecular_mass := 30%float |}
    else Raise (ValueError m);
  implemented_molecules := ["no"]
|}.

(** ** Vocabulary of the statements *)



Section Vocabulary.
Context (L : libm) (GPC : GPConstants).
Local Open Scope float_scope.

(** The two zeros. *)
Definition zeroish (a : float) : Prop := a = 0 ∨ a = -0.

(** What a successful call of [latlon2dlatdlon] is to return. *)
Definition latlon_post (n : nat) (R_lat R_lon : float) (lat lon latR lonR : value)
    (r : result (value * value * list GPF.warning)) : Prop :=
  ∃ dlat dlon w, r = Ok (dlat, dlon, w) ∧ shaped n dlat ∧ shaped n dlon ∧
    ∀ k, (k < n)%nat →
      get dlat k = Spec.dNorth L GPC R_lat (get lat k) (get latR k)
      ∧ get dlon k = Spec.dEast L GPC R_lon (get lat k) (get lon k) (get lonR k).


(** The phases of [calculate_sigma]. *)
Definition sigma_mask (dx tc : obj) : St () :=
  negative ← (let@ dxv := load dx in lift (dxv <? 0)%np);
  if np_any negative then
    let idx_nan := np_where negative in
    setitem dx idx_nan nan;;
    if is_ndarray tc then setitem tc idx_nan nan else mret ()
  else mret ().

Definition sigma_clamp (tc : obj) (tc_minimum : float) : St obj :=
  if is_ndarray tc then
    below ← (let@ tcv := load tc in lift (tcv <? tc_minimum)%np);
    let idx := np_where below in
    setitem tc idx tc_minimum;;
    mret tc
  else
    below ← (let@ tcv := load tc in lift (b ← (tcv <? tc_minimum)%np; GPF.truth b));
    mret (if below : bool then OFloat tc_minimum else tc).

Definition sigma_formulas (dx z0 tc : value) (dispersion_constants : option table)
    (stability_index : ivalue) (offset_sigma_z : value) (ca cb : float)
    : result (value * value) :=
  (let* sigma_y := GPF.getitem2 dispersion_constants stability_index 0
                    * rop2 (libm_pow L) dx (GPF.getitem2 dispersion_constants stability_index 1)
                    * (rop2 (libm_pow L) z0 0.2) * (rop2 (libm_pow L) tc 0.35) in
    let* sigma_z := GPF.getitem2 dispersion_constants stability_index 2
                    * rop2 (libm_pow L) dx (GPF.getitem2 dispersion_constants stability_index 3)
                    * rop2 (libm_pow L) (10 * z0) (ca * rop2 (libm_pow L) dx cb) + offset_sigma_z in
    Ok (sigma_y, sigma_z))%np.



(** [C[i, j]] for integers [i] and [j]. *)
Definition cell (C : table) (i j : Z) : option float :=
  row ← py_index C i; py_index row j.




(** The contents of an object in a heap, and their element [k]. *)
Definition ovalue (h : heap) (o : obj) : value :=
  match o with
  | ONone => VNone
  | OFloat x => Num x
  | OArr l => match h !! l with Some xs => Arr xs | None => VNone end
  end.
Definition oget (h : heap) (o : obj) (k : nat) : float := get (ovalue h o) k.
Definition oshaped (h : heap) (n : nat) (o : obj) : Prop := shaped n (ovalue h o).




End Vocabulary.

(** *** Stability classes *)

(** The letters of the classes in either case. *)
Definition class_letters : list string :=
  GPF.stability_classes ++ (lower <$> GPF.stability_classes).

(** The index a class letter stands for, [-1] for anything else: what the
    loop of [stability_class2index] leaves at the position of [s]. *)
Definition class_code (s : string) : Z :=
  foldl (λ acc p, let acc := if bool_decide (s = p.2) then Z.of_nat p.1 else acc in
                  if bool_decide (s = lower p.2) then Z.of_nat p.1 else acc)
        (-1)%Z (imap pair GPF.stability_classes).




(** ** Sample data for running the definitions *)

Section Samples.
Local Open Scope float_scope.

(** Two observations, the first one upwind: [dx] and [tc] are arrays at the
    addresses 0 and 1. *)
Definition two_observations : heap :=
  <[1%nat := [0.002; 0.0001]]> (<[0%nat := [-296.06762177; 49.9696837]]> ∅).

(** The source and the data frame of the repository's test of present
    [dx] and [dy]. *)
Definition methane : Source.Molecule := {| Source.name := "ch4"; Source.molecular_mass := 16 |}.

Definition source_with_dxdy : Source.t :=
  Source.set_dx_dy (Source.init 0 methane 0) (OFloat (-296.06762177)) (OFloat (-412.86479599)).

Definition plume_with_dxdy : Plume.t :=
  {| Plume.verbose := 0;
     Plume.df := Some [("dx", [-296.06762177; -49.9696837]);
                       ("dy", [-412.86479599; -505.58521254])];
     Plume.dispersion_constants := None; Plume.molecules := None;
     Plume.molecular_properties := None; Plume.molecular_mass := None;
     Plume.mode := None |}.



End Samples.

(** ** Further vocabulary *)

(** *** The wind frame, distances and travel time, on single numbers *)

Module Formula.
Section Formulas.
Context (L : libm) (GPC : GPConstants).
Local Open Scope float_scope.

Definition downwind (dlatS dlonS dlatM dlonM wind_direction : float) : float :=
  (dlatS - dlatM) * libm_cos L (wind_direction * deg2rad GPC)
  + (dlonS - dlonM) * libm_sin L (wind_direction * deg2rad GPC).

Definition crosswind (dlatS dlonS dlatM dlonM wind_direction : float) : float :=
  (dlatS - dlatM) * libm_sin L (wind_direction * deg2rad GPC)
  - (dlonS - dlonM) * libm_cos L (wind_direction * deg2rad GPC).

Definition distance (a b : float) : float :=
  PrimFloat.sqrt (libm_pow L a 2 + libm_pow L b 2).


End Formulas.
End Formula.

Section Vocabulary2.
Context (L : libm) (GPC : GPConstants).
Local Open Scope float_scope.

(** The distances of the points of two offsets, one per point. *)
Definition distances (a b : value) : list float :=
  match a, b with
  | Num x, Num y => [Formula.distance L x y]
  | Num x, Arr ys => Formula.distance L x <$> ys
  | Arr xs, Num y => (λ x, Formula.distance L x y) <$> xs
  | Arr xs, Arr ys => zip_with (Formula.distance L) xs ys
  | _, _ => []
  end.

(** The warnings for two offsets: none when no distance is above the
    limit, and otherwise one, which counts the distances above it. *)
Definition distance_warnings (limit : float) (a b : value) : list GPF.warning :=
  let far := filter (λ d, (limit <? d) = true) (distances a b) in
  if decide (far = []) then [] else [GPF.DistanceAbove limit (length far)].

(** What a successful call of [dlatdlon2dxdy] is to return. *)
Definition dxdy_post (n : nat) (limit : float)
    (dlatS dlonS dlatM dlonM wind_direction : value)
    (r : result (value * value * list GPF.warning)) : Prop :=
  ∃ dx dy, r = Ok (dx, dy, distance_warnings limit dx dy) ∧ shaped n dx ∧ shaped n dy ∧
    ∀ k, (k < n)%nat →
      get dx k = Formula.downwind L GPC (get dlatS k) (get dlonS k) (get dlatM k)
                   (get dlonM k) (get wind_direction k)
      ∧ get dy k = Formula.crosswind L GPC (get dlatS k) (get dlonS k) (get dlatM k)
                     (get dlonM k) (get wind_direction k).

(** The offsets [Source.calculate_dxdy] derives from the coordinates of
    observation [k], with the conversion factors of [GPConstants]. *)
Definition north_of (h : heap) (lat latR : obj) (k : nat) : float :=
  Spec.dNorth L GPC (latlon2dxdy_lat_conversion_factor GPC) (oget h lat k) (oget h latR k).
Definition east_of (h : heap) (lat lon lonR : obj) (k : nat) : float :=
  Spec.dEast L GPC (latlon2dxdy_lon_conversion_factor GPC) (oget h lat k) (oget h lon k)
    (oget h lonR k).

End Vocabulary2.

(** *** Indices into the table *)

(** Python's reading of an index into a sequence of length [len]: a
    negative index counts from the end. *)
Definition wrap_index (len : nat) (i : Z) : Z :=
  if decide (i < 0)%Z then (i + Z.of_nat len)%Z else i.
Definition wrap_indices (len : nat) (si : ivalue) : ivalue :=
  match si with
  | IInt i => IInt (wrap_index len i)
  | IArr l => IArr (wrap_index len <$> l)
  end.
Definition indices (si : ivalue) : list Z :=
  match si with IInt i => [i] | IArr l => l end.

(** *** Data frames *)

(** The values of a column of a data frame, and a data frame whose columns
    all have [n] rows. *)
Definition column (d : Plume.DataFrame) (c : string) : list float :=
  match list_find (λ x, x.1 = c) d with
  | Some (_, x) => x.2
  | None => []
  end.
Definition frame_rows (n : nat) (d : Plume.DataFrame) : Prop :=
  Forall (λ c, length c.2 = n) d.

(** A value that is an array, and a computation that returns no number. *)
Definition is_arr (v : value) : Prop := ∃ xs, v = Arr xs.
Definition arr_result (r : result value) : Prop := ∀ v, r = Ok v → is_arr v.

(** The columns [calculate_concentration_prepare_dxdy] computes from. *)
Definition coordinate_columns : list string :=
  ["latS"; "lonS"; "latM"; "lonM"; "latR"; "lonR"; "wind_direction"].

Section Frames.
Context (L : libm) (GPC : GPConstants).
Local Open Scope float_scope.

(** The offsets and the distances of row [k] of a data frame. *)
Definition frame_north (d : Plume.DataFrame) (lat latR : string) (k : nat) : float :=
  Spec.dNorth L GPC (latlon2dxdy_lat_conversion_factor GPC)
    (get (Arr (column d lat)) k) (get (Arr (column d latR)) k).
Definition frame_east (d : Plume.DataFrame) (lat lon lonR : string) (k : nat) : float :=
  Spec.dEast L GPC (latlon2dxdy_lon_conversion_factor GPC)
    (get (Arr (column d lat)) k) (get (Arr (column d lon)) k) (get (Arr (column d lonR)) k).
Definition frame_dx (d : Plume.DataFrame) (k : nat) : float :=
  Formula.downwind L GPC (frame_north d "latS" "latR" k) (frame_east d "latS" "lonS" "lonR" k)
    (frame_north d "latM" "latR" k) (frame_east d "latM" "lonM" "lonR" k)
    (get (Arr (column d "wind_direction")) k).
Definition frame_dy (d : Plume.DataFrame) (k : nat) : float :=
  Formula.crosswind L GPC (frame_north d "latS" "latR" k) (frame_east d "latS" "lonS" "lonR" k)
    (frame_north d "latM" "latR" k) (frame_east d "latM" "lonM" "lonR" k)
    (get (Arr (column d "wind_direction")) k).

End Frames.

(** *** Strings *)

(** The characters of a string, each as a string of its own. *)
Fixpoint characters (s : string) : list string :=
  match s with
  | EmptyString => []
  | String c s => String c EmptyString :: characters s
  end.



(** *** The stability attributes *)


(** ** Further sample data *)

(** A stand-in for [pathlib] on strings: a path is its text, and joining
    puts a slash in between. *)
Definition text_Path (s : string) : string := s.
Definition text_joinpath (p q : string) : string := p +:+ "/" +:+ q.

(** The data frame the repository's test computes [dx] and [dy] from. *)
Definition frame_coordinates : Plume.DataFrame :=
  [("latS", [53.2835; 53.2835]); ("lonS", [6.3039; 6.3039]);
   ("latM", [53.2876717; 53.2876717]); ("lonM", [6.3007517; 6.3007517]);
   ("latR", [53.28375; 53.28375]); ("lonR", [6.3024917; 6.3024917]);
   ("wind_direction", [30; 60])]%float.

Definition plume_of (d : Plume.DataFrame) : Plume.t :=
  {| Plume.verbose := 0; Plume.df := Some d;
     Plume.dispersion_constants := None; Plume.molecules := None;
     Plume.molecular_properties := None; Plume.molecular_mass := None;
     Plume.mode := None |}.

(** A source that knows the coordinates of the same test, as numbers. *)
Definition source_coordinates : Source.t :=
  {| Source.verbose := 0; Source.source_id := 1; Source.molecule := methane;
     Source.label := "1 ch4"; Source.dx := ONone; Source.dy := ONone;
     Source.dlatS := ONone; Source.dlonS := ONone;
     Source.dlatM := ONone; Source.dlonM := ONone;
     Source.latS := OFloat 53.2835; Source.lonS := OFloat 6.3039;
     Source.latR := OFloat 53.28375; Source.lonR := OFloat 6.3024917;
     Source.latM := OFloat 53.2876717; Source.lonM := OFloat 6.3007517;
     Source.wind_direction := OFloat 30; Source.wind_speed := OFloat 10;
     Source.qs := ONone; Source.hs := ONone; Source.hm := ONone;
     Source.z0 := ONone; Source.zr := ONone;
     Source.offset_sigma_z := ONone; Source.dispersion_mode := None;
     Source.dispersion_constants := None; Source.tc := ONone;
     Source.sigma_y := ONone; Source.sigma_z := ONone;
     Source._stability_index := None; Source._stability_class := None |}.

(** Keyword arguments of [Source] that give both stability attributes. *)
Definition kwargs_index_and_class : Source.kwargs :=
  {| Source.kw_label := None; Source.kw_dx := OFloat 100; Source.kw_dy := OFloat 5;
     Source.kw_dlatS := ONone; Source.kw_dlonS := ONone;
     Source.kw_dlatM := ONone; Source.kw_dlonM := ONone;
     Source.kw_latS := ONone; Source.kw_lonS := ONone;
     Source.kw_latR := ONone; Source.kw_lonR := ONone;
     Source.kw_latM := ONone; Source.kw_lonM := ONone;
     Source.kw_wind_direction := ONone; Source.kw_wind_speed := ONone;
     Source.kw_qs := ONone; Source.kw_hs := ONone; Source.kw_hm := ONone;
     Source.kw_z0 := ONone; Source.kw_zr := ONone;
     Source.kw_offset_sigma_z := ONone; Source.kw_dispersion_mode := None;
     Source.kw_dispersion_constants := None; Source.kw_tc := ONone;
     Source.kw_sigma_y := ONone; Source.kw_sigma_z := ONone;
     Source.kw_stability_index := Some (IInt 0);
     Source.kw_stability_class := Some (CStr "f") |}.


(** A data frame with a column per measured molecule, and one with the
    travel time. *)
Definition frame_molecules : Plume.DataFrame :=
  [("no", [0.1; 0.2]); ("wind_speed", [10; 20]); ("xyz", [1; 2])]%float.
Definition frame_tc : Plume.DataFrame := [("tc", [100; 200])]%float.


(** * Properties *)

(** ** Floating-point facts *)

Section FloatFacts.
Local Open Scope float_scope.

Lemma float_mul_opp_opp (x : float) : (- x) * (- x) = x * x.
Proof.
  apply Prim2SF_inj. rewrite !mul_spec, opp_spec.
  destruct (Prim2SF x) as [s|s| |s m e]; simpl; try reflexivity;
    destruct s; reflexivity.
Qed.

Lemma small_pow_even : Libm.pow_even Libm.small.
Proof. intros x. simpl. apply float_mul_opp_opp. Qed.

End FloatFacts.

(** ** Element-wise reading of expressions *)


Section Pointwise.
Context (n : nat).

Lemma pointwise_value (v : value) : shaped n v → pointwise n (of_value v) (get v).
Proof. intros Hv. exists v. auto. Qed.

Lemma pointwise_num (x : float) : pointwise n (of_value (Num x)) (λ _, x).
Proof. exists (Num x). simpl. auto. Qed.

Lemma pointwise_ext (r : result value) (g g' : nat → float) :
  pointwise n r g → (∀ k, k < n → g k = g' k) → pointwise n r g'.
Proof.
  intros (v & -> & Hs & Hg) Heq. exists v. repeat split; auto.
  intros k Hk. rewrite Hg by done. auto.
Qed.

Lemma get_fmap (f : float → float) (xs : list float) (k : nat) :
  k < length xs → default nan ((f <$> xs) !! k) = f (default nan (xs !! k)).
Proof.
  intros Hk. rewrite list_lookup_fmap.
  destruct (lookup_lt_is_Some_2 xs k Hk) as [x ->]. reflexivity.
Qed.

Lemma pointwise_lift1 (f : float → float) (v : value) :
  shaped n v → pointwise n (lift1 f v) (λ k, f (get v k)).
Proof.
  destruct v as [|x|xs]; simpl; [done| |]; intros Hs.
  - exists (Num (f x)). auto.
  - exists (Arr (f <$> xs)). repeat split; simpl.
    + by rewrite length_fmap.
    + intros k Hk. apply get_fmap. lia.
Qed.

Lemma pointwise_lift2 (f : float → float → float) (a b : value) :
  shaped n a → shaped n b →
  pointwise n (lift2 f a b) (λ k, f (get a k) (get b k)).
Proof.
  destruct a as [|x|xs], b as [|y|ys]; simpl; try done; intros Ha Hb.
  - exists (Num (f x y)). auto.
  - exists (Arr (f x <$> ys)). repeat split; simpl.
    + by rewrite length_fmap.
    + intros k Hk. apply get_fmap. lia.
  - exists (Arr ((λ x, f x y) <$> xs)). repeat split; simpl.
    + by rewrite length_fmap.
    + intros k Hk. apply (get_fmap (λ x, f x y)). lia.
  - unfold broadcast. rewrite decide_True by congruence.
    exists (Arr (zip_with f xs ys)). repeat split; simpl.
    + rewrite length_zip_with. lia.
    + intros k Hk. rewrite lookup_zip_with.
      destruct (lookup_lt_is_Some_2 xs k) as [x ->]; [lia|].
      destruct (lookup_lt_is_Some_2 ys k) as [y ->]; [lia|]. reflexivity.
Qed.

Lemma pointwise_rop1 (f : float → float) (r : result value) (g : nat → float) :
  pointwise n r g → pointwise n (rop1 f r) (λ k, f (g k)).
Proof.
  intros (v & -> & Hs & Hg). unfold rop1. simpl.
  eapply pointwise_ext; [by apply pointwise_lift1|].
  intros k Hk. simpl. by rewrite Hg.
Qed.

Lemma pointwise_rop2 (f : float → float → float) (ra rb : result value)
    (ga gb : nat → float) :
  pointwise n ra ga → pointwise n rb gb →
  pointwise n (rop2 f ra rb) (λ k, f (ga k) (gb k)).
Proof.
  intros (a & -> & Ha & Hga) (b & -> & Hb & Hgb). unfold rop2. simpl.
  eapply pointwise_ext; [by apply pointwise_lift2|].
  intros k Hk. simpl. by rewrite Hga, Hgb.
Qed.

Lemma pointwise_bind (r : result value) (k : value → result value)
    (g h : nat → float) :
  pointwise n r g →
  (∀ v, pointwise n (of_value v) g → pointwise n (k v) h) →
  pointwise n (mbind k r) h.
Proof.
  intros (v & -> & Hs & Hg) Hk. simpl. apply Hk. exists v. auto.
Qed.

End Pointwise.

(** Solves [pointwise n e ?g] for an expression [e], building [g] along
    the structure of [e]. *)
Ltac pointwise_step :=
  first
    [ eassumption
    | apply pointwise_num
    | apply pointwise_value; assumption
    | eapply pointwise_rop2
    | eapply pointwise_rop1
    | eapply pointwise_bind; [|intros ? ?] ].
Ltac pointwise_expr := repeat pointwise_step.

(** ** The concentration formula *)

Section Concentration.
Context (L : libm) (GPC : GPConstants).





End Concentration.

Section ConcentrationWitness.
Local Open Scope float_scope.


End ConcentrationWitness.

(** ** Geodetic offsets *)

Section FloatZero.
Local Open Scope float_scope.

Lemma finite_cases (c : float) :
  is_finite c = true →
  (∃ s, Prim2SF c = S754_zero s) ∨ (∃ s m e, Prim2SF c = S754_finite s m e).
Proof.
  unfold is_finite, is_nan, is_infinity.
  rewrite !FloatAxioms.eqb_spec, abs_spec.
  destruct (Prim2SF c) as [s|s| |s m e]; simpl; try discriminate; eauto.
  destruct s; discriminate.
Qed.

Lemma float_sub_diag (x : float) : is_finite x = true → x - x = 0.
Proof.
  intros Hx. apply Prim2SF_inj. rewrite sub_spec.
  destruct (finite_cases x Hx) as [[s ->]|(s & m & e & ->)].
  - destruct s; reflexivity.
  - unfold SF64sub, SFsub. cbv zeta. rewrite Z.sub_diag. reflexivity.
Qed.

Lemma zeroish_spec (a : float) : zeroish a ↔ ∃ s, Prim2SF a = S754_zero s.
Proof.
  split.
  - intros [-> | ->]; eexists; reflexivity.
  - intros [s Hs]. destruct s; [right|left]; apply Prim2SF_inj; rewrite Hs; reflexivity.
Qed.

Lemma zeroish_is_zero (a : float) : zeroish a → is_zero a = true.
Proof. intros [-> | ->]; reflexivity. Qed.

Lemma zeroish_mul_l (a c : float) :
  zeroish a → is_finite c = true → zeroish (a * c).
Proof.
  rewrite !zeroish_spec. intros [s Ha] Hc. rewrite mul_spec, Ha.
  destruct (finite_cases c Hc) as [[s' ->]|(s' & m & e & ->)]; simpl; eauto.
Qed.

Lemma zeroish_mul_r (a c : float) :
  is_finite c = true → zeroish a → zeroish (c * a).
Proof.
  rewrite !zeroish_spec. intros Hc [s Ha]. rewrite mul_spec, Ha.
  destruct (finite_cases c Hc) as [[s' ->]|(s' & m & e & ->)]; simpl; eauto.
Qed.

Lemma float_mul_nan_l (x : float) : nan * x = nan.
Proof. apply Prim2SF_inj. rewrite mul_spec. reflexivity. Qed.

Lemma float_mul_nan_r (x : float) : x * nan = nan.
Proof.
  apply Prim2SF_inj. rewrite mul_spec.
  change (Prim2SF nan) with S754_nan. by destruct (Prim2SF x).
Qed.

End FloatZero.

Section Geodetic.
Context (L : libm) (GPC : GPConstants).
Local Open Scope float_scope.

Lemma pointwise_bind_any {B} (n : nat) (r : result value) (k : value → result B)
    (g : nat → float) (P : result B → Prop) :
  pointwise n r g →
  (∀ v, pointwise n (of_value v) g → P (k v)) →
  P (mbind k r).
Proof. intros (v & -> & Hs & Hg) Hk. simpl. apply Hk. exists v. auto. Qed.

Lemma pointwise_inv (n : nat) (v : value) (g : nat → float) :
  pointwise n (of_value v) g → shaped n v ∧ ∀ k, (k < n)%nat → get v k = g k.
Proof. intros (v' & Heq & Hs & Hg). unfold of_value in Heq. by simplify_eq. Qed.

Lemma warn_distance_returns (n : nat) (dist : value) (limit : float) :
  shaped n dist → ∃ w, GPF.warn_distance dist limit = Ok w.
Proof.
  intros Hs. unfold GPF.warn_distance, rcmp, of_value. simpl.
  destruct dist; simpl; try done; eauto.
Qed.

Lemma latlon2dlatdlon_pointwise (n : nat) (lat lon latR lonR : value)
    (limit : float) (kw_lon kw_lat : option float) :
  shaped n lat → shaped n lon → shaped n latR → shaped n lonR →
  latlon_post L GPC n (default (latlon2dxdy_lat_conversion_factor GPC) kw_lat)
    (default (latlon2dxdy_lon_conversion_factor GPC) kw_lon) lat lon latR lonR
    (GPF.latlon2dlatdlon L GPC lat lon latR lonR limit kw_lon kw_lat).
Proof.
  intros Hlat Hlon HlatR HlonR. unfold GPF.latlon2dlatdlon. cbv zeta.
  unfold GPF.np_sin, GPF.np_cos, GPF.np_sqrt.
  set (P := latlon_post L GPC n _ _ lat lon latR lonR).
  eapply (pointwise_bind_any n _ _ _ P); [pointwise_expr|]. intros dlat Hdlat.
  eapply (pointwise_bind_any n _ _ _ P); [pointwise_expr|]. intros dlon Hdlon.
  eapply (pointwise_bind_any n _ _ _ P); [pointwise_expr|]. intros dist Hdist.
  apply pointwise_inv in Hdlat as [? Hg1], Hdlon as [? Hg2], Hdist as [Hd _].
  destruct (warn_distance_returns n dist limit Hd) as [w ->]. simpl.
  exists dlat, dlon, w. repeat split; auto.
Qed.

Lemma latlon2dlatdlon_scalar (lat lon latR lonR limit : float)
    (kw_lon kw_lat : option float) :
  ∃ w, GPF.latlon2dlatdlon L GPC (Num lat) (Num lon) (Num latR) (Num lonR) limit
         kw_lon kw_lat
       = Ok (Num (Spec.dNorth L GPC (default (latlon2dxdy_lat_conversion_factor GPC)
                                       kw_lat) lat latR),
             Num (Spec.dEast L GPC (default (latlon2dxdy_lon_conversion_factor GPC)
                                      kw_lon) lat lon lonR), w).
Proof. eexists. reflexivity. Qed.

Lemma dNorth_self (R_lat lat : float) :
  Libm.sin_zero L → is_finite (deg2rad GPC) = true → is_finite R_lat = true →
  is_finite lat = true →
  zeroish (Spec.dNorth L GPC R_lat lat lat).
Proof.
  intros [Hs0 Hs1] Hd HR Hlat. unfold Spec.dNorth.
  rewrite float_sub_diag by done.
  apply zeroish_mul_l; [|done].
  destruct (zeroish_mul_l 0 (deg2rad GPC)) as [-> | ->]; [by left|done| |].
  - rewrite Hs0. by left.
  - rewrite Hs1. by right.
Qed.

Lemma dEast_self (R_lon lat lon : float) :
  Libm.sin_zero L → Libm.cos_finite L →
  is_finite (deg2rad GPC) = true → is_finite R_lon = true →
  is_finite lon = true → is_finite (lat * deg2rad GPC) = true →
  zeroish (Spec.dEast L GPC R_lon lat lon lon).
Proof.
  intros [Hs0 Hs1] Hcos Hd HR Hlon Hrad. unfold Spec.dEast.
  rewrite float_sub_diag by done.
  apply zeroish_mul_l; [|done].
  apply zeroish_mul_r; [by apply Hcos|].
  destruct (zeroish_mul_l 0 (deg2rad GPC)) as [-> | ->]; [by left|done| |].
  - rewrite Hs0. by left.
  - rewrite Hs1. by right.
Qed.

(** C6 (as amended). For numbers and arrays of one common length,
    [latlon2dlatdlon] returns [dNorth = sin((lat - latR) * deg2rad) * R_lat] and
    [dEast = cos(lat * deg2rad) * sin((lon - lonR) * deg2rad) * R_lon], element
    by element.  With the point as its own reference, and [lat], [lon], the
    constants and the latitude in radians finite, both distances are zero
    (they compare equal to [0]; the sign of the zero may be negative). *)
Theorem latlon2dlatdlon_formula (n : nat) (lat lon latR lonR : value)
    (limit : float) (kw_lon kw_lat : option float) :
  let R_lat := default (latlon2dxdy_lat_conversion_factor GPC) kw_lat in
  let R_lon := default (latlon2dxdy_lon_conversion_factor GPC) kw_lon in
  shaped n lat → shaped n lon → shaped n latR → shaped n lonR →
  latlon_post L GPC n R_lat R_lon lat lon latR lonR
    (GPF.latlon2dlatdlon L GPC lat lon latR lonR limit kw_lon kw_lat)
  ∧ (∀ x y : float,
       Libm.sin_zero L → Libm.cos_finite L →
       is_finite (deg2rad GPC) = true → is_finite R_lat = true →
       is_finite R_lon = true →
       is_finite x = true → is_finite y = true →
       is_finite (x * deg2rad GPC) = true →
       ∃ dn de w,
         GPF.latlon2dlatdlon L GPC (Num x) (Num y) (Num x) (Num y) limit kw_lon kw_lat
         = Ok (Num dn, Num de, w)
         ∧ is_zero dn = true ∧ is_zero de = true).
Proof.
  intros R_lat R_lon Hlat Hlon HlatR HlonR. split.
  - by apply latlon2dlatdlon_pointwise.
  - intros x y Hsin Hcos Hd HRlat HRlon Hx Hy Hrad.
    destruct (latlon2dlatdlon_scalar x y x y limit kw_lon kw_lat) as [w Hw].
    eexists _, _, w. split; [exact Hw|].
    split; apply zeroish_is_zero; [by apply dNorth_self|by apply dEast_self].
Qed.

End Geodetic.

Section GeodeticExamples.
Local Open Scope float_scope.

Lemma small_sin_zero : Libm.sin_zero Libm.small.
Proof. split; reflexivity. Qed.

Lemma small_cos_finite : Libm.cos_finite Libm.small.
Proof. intros x _. reflexivity. Qed.

Lemma latlon2dlatdlon_formula_witness :
  latlon_post Libm.small GPC_sample 2 6356752 6378137
    (Arr [53.2835; 53.2876717]) (Arr [6.3039; 6.3007517])
    (Num 53.28375) (Num 6.3024917)
    (GPF.latlon2dlatdlon Libm.small GPC_sample
       (Arr [53.2835; 53.2876717]) (Arr [6.3039; 6.3007517])
       (Num 53.28375) (Num 6.3024917) 100000 None None)
  ∧ ∃ dn de w,
      GPF.latlon2dlatdlon Libm.small GPC_sample (Num 53.2835) (Num 6.3039)
        (Num 53.2835) (Num 6.3039) 100000 None None
      = Ok (Num dn, Num de, w)
      ∧ is_zero dn = true ∧ is_zero de = true.
Proof.
  destruct (latlon2dlatdlon_formula Libm.small GPC_sample 2
              (Arr [53.2835; 53.2876717]) (Arr [6.3039; 6.3007517])
              (Num 53.28375) (Num 6.3024917) 100000 None None)
    as [Hformula Hself]; [reflexivity|reflexivity|exact I|exact I|].
  split; [exact Hformula|].
  apply Hself; solve [apply small_sin_zero | apply small_cos_finite | reflexivity].
Defined.

(** With a not-a-number latitude the north distance is not-a-number,
    whatever the constants and for every C library whose sine maps
    not-a-number to not-a-number: no such call returns a zero offset. *)
Lemma latlon2dlatdlon_self_nan :
  ¬ ∃ (L : libm) (GPC : GPConstants) (dn de : float) (w : list GPF.warning),
      Libm.sin_nan L
      ∧ GPF.latlon2dlatdlon L GPC (Num nan) (Num 0) (Num nan) (Num 0) 100000 None None
        = Ok (Num dn, Num de, w)
      ∧ is_zero dn = true.
Proof.
  intros (L & GPC & dn & de & w & Hsin & Hcall & Hzero).
  destruct (latlon2dlatdlon_scalar L GPC nan 0 nan 0 100000 None None) as [w' Hw].
  rewrite Hw in Hcall. injection Hcall as <- _ _.
  unfold Spec.dNorth in Hzero.
  change (nan - nan) with nan in Hzero.
  rewrite float_mul_nan_l, Hsin, float_mul_nan_l in Hzero.
  discriminate Hzero.
Qed.

End GeodeticExamples.

(** ** Plume spread *)




Section Sigma.
Context (L : libm) (GPC : GPConstants).
Local Open Scope float_scope.

Lemma St_bind_ok {A B} (m : St A) (f : A → St B) (h h' : heap) (a : A) :
  m h = (Ok a, h') → (m ≫= f) h = f a h'.
Proof. intros H. unfold mbind, St_bind. by rewrite H. Qed.

Lemma St_bind_raise {A B} (m : St A) (f : A → St B) (h h' : heap) (e : exn) :
  m h = (Raise e, h') → (m ≫= f) h = (Raise e, h').
Proof. intros H. unfold mbind, St_bind. by rewrite H. Qed.

Lemma St_bind_assoc {A B C} (m : St A) (f : A → St B) (g : B → St C) (h : heap) :
  ((m ≫= f) ≫= g) h = (m ≫= (λ a, f a ≫= g)) h.
Proof. unfold mbind, St_bind. destruct (m h) as [[a|e] h']; done. Qed.

Lemma St_bind_ext {A B} (m : St A) (f g : A → St B) (h : heap) :
  (∀ a h', f a h' = g a h') → (m ≫= f) h = (m ≫= g) h.
Proof. intros Hfg. unfold mbind, St_bind. destruct (m h) as [[a|e] h']; auto. Qed.






Lemma calculate_sigma_phases dx z0 tc C si tcmin off kw_ca kw_cb (h : heap) :
  GPF.calculate_sigma L GPC dx z0 tc C si tcmin off kw_ca kw_cb h
  = (sigma_mask dx tc;;
     tc' ← sigma_clamp tc tcmin;
     let@ dxv := load dx in
     let@ z0v := load z0 in
     let@ tcv := load tc' in
     let@ offv := load off in
     lift (sigma_formulas L dxv z0v tcv C si offv (default (sigma_ca GPC) kw_ca)
             (default (sigma_cb GPC) kw_cb))) h.
Proof.
  unfold GPF.calculate_sigma, sigma_mask.
  etransitivity; [|symmetry; apply St_bind_assoc].
  reflexivity.
Qed.





Lemma sigma_mask_negative_scalar (h : heap) (x : float) (tc : obj) :
  (x <? 0) = true →
  sigma_mask (OFloat x) tc h = (Raise (TypeError NoItemAssignment), h).
Proof. intros Hx. unfold sigma_mask. simpl. unfold mbind, St_bind. simpl. by rewrite Hx. Qed.








Lemma load_ovalue (h : heap) (n : nat) (o : obj) :
  oshaped h n o → load o h = (Ok (ovalue h o), h).
Proof.
  unfold oshaped, load, ovalue. destruct o as [|x|l]; try done.
  by destruct (h !! l).
Qed.
















(** C3 (the failing input). With a negative number for [dx] the call is not
    masked: writing not-a-number into [dx] raises a [TypeError], whatever the
    other arguments are, and nothing is returned. *)
Theorem calculate_sigma_negative_scalar (h : heap) (z0 tc off : obj) (C : option table)
    (si : ivalue) (tcmin : float) (kw_ca kw_cb : option float) :
  GPF.calculate_sigma L GPC (OFloat (-1)) z0 tc C si tcmin off kw_ca kw_cb h
  = (Raise (TypeError NoItemAssignment), h).
Proof.
  rewrite calculate_sigma_phases.
  by erewrite St_bind_raise by (by apply sigma_mask_negative_scalar).
Qed.

End Sigma.

Section SigmaExamples.
Local Open Scope float_scope.

Lemma small_pow_cases : Libm.pow_cases Libm.small.
Proof.
  repeat split. intros y. simpl. by destruct (y =? 2).
Qed.




Lemma calculate_sigma_negative_scalar_example :
  GPF.calculate_sigma Libm.small GPC_sample (OFloat (-1)) (OFloat 1.5) (OFloat 0.002)
    (Some nogepa) (IInt 0) 0 (OFloat 0) None None ∅
  = (Raise (TypeError NoItemAssignment), ∅).
Proof. vm_compute. reflexivity. Qed.

End SigmaExamples.

(** ** Stability classes *)






Ltac eval_lower :=
  repeat match goal with
         | |- context [lower_ascii ?c] =>
             let c' := eval vm_compute in (lower_ascii c) in
             change (lower_ascii c) with c'
         | H : context [lower_ascii ?c] |- _ =>
             let c' := eval vm_compute in (lower_ascii c) in
             change (lower_ascii c) with c' in H
         end.





Section Positions.
Context {A : Type} (f : A → bool).

Lemma true_positions_length (i : nat) (l : list A) :
  length (true_positions i (f <$> l)) = length (filter (λ x, f x = true) l).
Proof.
  revert i. induction l as [|x l IH]; intros i; simpl; [done|].
  rewrite length_app, IH, filter_cons. by destruct (f x).
Qed.



End Positions.















(** ** The preparation chain *)

Section Chain.
Context (L : libm) (GPC : GPConstants).

(** C7. When [dx] and [dy] are both present, computing them is a no-op:
    [Source.calculate_dxdy] returns with the instance and the heap as they
    were, and [Plume.calculate_concentration_prepare_dxdy] returns with the
    data frame, and so its columns [dx] and [dy], as they were. *)
Theorem calculate_dxdy_present_is_noop (s : Source.t) (h : heap) (p : Plume.t)
    (d : Plume.DataFrame) (env : list (string * Call.arg)) :
  Source.dx s ≠ ONone → Source.dy s ≠ ONone →
  Plume.df p = Some d → "dx" ∈ Plume.columns d → "dy" ∈ Plume.columns d →
  Source.calculate_dxdy L GPC s h = (Ok (VNone, s), h)
  ∧ Plume.calculate_concentration_prepare_dxdy L GPC p env = Ok (VNone, p).
Proof.
  intros Hdx Hdy Hdf Hcx Hcy. split.
  - unfold Source.calculate_dxdy.
    destruct (Source.dx s); [done| |]; destruct (Source.dy s); done.
  - unfold Plume.calculate_concentration_prepare_dxdy, Plume.get_df.
    rewrite Hdf. simpl.
    rewrite (bool_decide_eq_false_2 ("dx" ∉ Plume.columns d)) by auto.
    rewrite (bool_decide_eq_false_2 ("dy" ∉ Plume.columns d)) by auto.
    reflexivity.
Qed.

Lemma bind_instance_by_position (v : Call.arg) :
  Call.bind_arguments Plume.method_params [Call.ASelf] [("verbose", v)]
  = Raise (TypeError (MultipleValues "verbose")).
Proof. reflexivity. Qed.

Lemma bind_keyword_only (v : Call.arg) :
  Call.bind_arguments Plume.method_params [] [("verbose", v)] = Ok [("verbose", v)].
Proof. reflexivity. Qed.

(** C8. [Plume.calculate_concentration] never completes: the calls of
    [calculate_concentration_prepare_tc],
    [calculate_concentration_prepare_dispersion_constants] and
    [calculate_concentration_get_molecular_properties] pass the instance by
    position besides [verbose] by keyword, so each of them raises a
    [TypeError] when its arguments are bound; hence, when the preparation
    of [dx] and [dy] succeeds the method raises that [TypeError] at the next
    stage, and otherwise it raises what that preparation raised. *)
Theorem calculate_concentration_never_completes (self : Plume.t)
    (env : list (string * Call.arg)) :
  (∀ (p : Plume.t) (v : Call.arg) (body : list (string * Call.arg) → result (value * Plume.t)),
     body ∈ [Plume.calculate_concentration_prepare_tc p;
             Plume.calculate_concentration_prepare_dispersion_constants GPC p;
             Plume.calculate_concentration_get_molecular_properties GPC p] →
     Call.call Plume.method_params body [Call.ASelf] [("verbose", v)]
     = Raise (TypeError (MultipleValues "verbose")))
  ∧ (∃ v, Plume.calculate_concentration L GPC self env
          = match Plume.calculate_concentration_prepare_dxdy L GPC self [("verbose", v)] with
            | Ok _ => Raise (TypeError (MultipleValues "verbose"))
            | Raise e => Raise e
            end)
  ∧ (∀ r, Plume.calculate_concentration L GPC self env ≠ Ok r).
Proof.
  assert (∃ v, Plume.calculate_concentration L GPC self env
          = match Plume.calculate_concentration_prepare_dxdy L GPC self [("verbose", v)] with
            | Ok _ => Raise (TypeError (MultipleValues "verbose"))
            | Raise e => Raise e
            end) as Hcall.
  { exists (match Call.parameter env "verbose" with
            | Call.AInt v => Call.AInt (Plume.print_vars v (Plume.verbose self))
            | a => a
            end).
    unfold Plume.calculate_concentration. cbv zeta.
    unfold Call.call. rewrite bind_keyword_only. cbn [mbind result_bind].
    destruct (Plume.calculate_concentration_prepare_dxdy _ _ _ _) as [[r p]|e];
      [|reflexivity].
    by rewrite bind_instance_by_position. }
  split; [|split].
  - intros p v body _. unfold Call.call. by rewrite bind_instance_by_position.
  - exact Hcall.
  - intros r. destruct Hcall as [v ->].
    by destruct (Plume.calculate_concentration_prepare_dxdy _ _ _ _).
Qed.

Lemma St_bind_load {A} (o : obj) (f : value → St A) (h : heap) :
  (∀ l, o = OArr l → is_Some (h !! l)) →
  (load o ≫= f) h = f (ovalue h o) h.
Proof.
  intros Ho. apply St_bind_ok. destruct o as [| |l]; try done.
  simpl. destruct (Ho l eq_refl) as [xs ->]. done.
Qed.




End Chain.

Section ChainExamples.
Local Open Scope float_scope.

Lemma calculate_dxdy_present_is_noop_witness :
  Source.calculate_dxdy Libm.small GPC_sample source_with_dxdy ∅
  = (Ok (VNone, source_with_dxdy), ∅)
  ∧ Plume.calculate_concentration_prepare_dxdy Libm.small GPC_sample plume_with_dxdy []
    = Ok (VNone, plume_with_dxdy).
Proof.
  apply (calculate_dxdy_present_is_noop Libm.small GPC_sample source_with_dxdy ∅
           plume_with_dxdy
           [("dx", [-296.06762177; -49.9696837]); ("dy", [-412.86479599; -505.58521254])]
           []).
  - discriminate.
  - discriminate.
  - reflexivity.
  - apply (bool_decide_unpack _). vm_compute. exact I.
  - apply (bool_decide_unpack _). vm_compute. exact I.
Defined.

Lemma calculate_concentration_never_completes_witness :
  Plume.calculate_concentration Libm.small GPC_sample plume_with_dxdy []
  = Raise (TypeError (MultipleValues "verbose")).
Proof.
  destruct (proj1 (proj2 (calculate_concentration_never_completes Libm.small GPC_sample
                            plume_with_dxdy []))) as [v Hv].
  rewrite Hv. reflexivity.
Defined.





End ChainExamples.

(** * Further properties *)

Create HintDb arr.



(** ** Distances and warnings *)

Section Warnings.
Context (L : libm) (GPC : GPConstants).
Local Open Scope float_scope.

Lemma warn_count {A} (f : A → bool) (l : list A) (limit : float) :
  (if decide (0 < length (true_positions 0 (f <$> l)))%nat
   then [GPF.DistanceAbove limit (length (true_positions 0 (f <$> l)))] else [])
  = if decide (filter (λ x, f x = true) l = [])
    then [] else [GPF.DistanceAbove limit (length (filter (λ x, f x = true) l))].
Proof.
  rewrite true_positions_length.
  destruct (filter _ l) as [|x far]; simpl; repeat case_decide; try done; lia.
Qed.

Lemma warn_distance_list (ds : list float) (limit : float) :
  GPF.warn_distance (Arr ds) limit
  = Ok (let far := filter (λ d, (limit <? d) = true) ds in
        if decide (far = []) then [] else [GPF.DistanceAbove limit (length far)]).
Proof.
  unfold GPF.warn_distance, rcmp, of_value. simpl. f_equal.
  apply (warn_count (λ d, limit <? d)).
Qed.

Lemma warn_distance_num (d : float) (limit : float) :
  GPF.warn_distance (Num d) limit
  = Ok (let far := filter (λ d, (limit <? d) = true) [d] in
        if decide (far = []) then [] else [GPF.DistanceAbove limit (length far)]).
Proof.
  unfold GPF.warn_distance, rcmp, of_value. simpl. f_equal.
  apply (warn_count (λ d, limit <? d) [d]).
Qed.

Lemma zip_with_distance (xs ys : list float) :
  PrimFloat.sqrt <$> zip_with PrimFloat.add ((λ x, libm_pow L x 2) <$> xs)
                       ((λ x, libm_pow L x 2) <$> ys)
  = zip_with (Formula.distance L) xs ys.
Proof.
  revert ys. induction xs as [|x xs IH]; intros [|y ys]; simpl; try done.
  by rewrite IH.
Qed.

Lemma distance_value (n : nat) (a b : value) :
  shaped n a → shaped n b →
  ∃ dist, GPF.np_sqrt (rop2 PrimFloat.add (rop2 (libm_pow L) (of_value a) (of_value (Num 2)))
                       (rop2 (libm_pow L) (of_value b) (of_value (Num 2)))) = Ok dist
    ∧ ∀ limit, GPF.warn_distance dist limit = Ok (distance_warnings L limit a b).
Proof.
  intros Ha Hb. unfold GPF.np_sqrt, rop1, rop2, of_value.
  destruct a as [|x|xs], b as [|y|ys]; simpl in *; try done.
  - eexists. split; [reflexivity|]. intros limit. apply warn_distance_num.
  - eexists. split; [reflexivity|]. intros limit. rewrite warn_distance_list.
    unfold distance_warnings, distances. by rewrite <- !list_fmap_compose.
  - eexists. split; [reflexivity|]. intros limit. rewrite warn_distance_list.
    unfold distance_warnings, distances. by rewrite <- !list_fmap_compose.
  - unfold broadcast. rewrite decide_True by (rewrite !length_fmap; lia). simpl.
    eexists. split; [reflexivity|]. intros limit. rewrite warn_distance_list.
    unfold distance_warnings, distances. by rewrite zip_with_distance.
Qed.

Lemma dlatdlon2dxdy_pointwise (n : nat) (dlatS dlonS dlatM dlonM wind_direction : value)
    (limit : float) :
  shaped n dlatS → shaped n dlonS → shaped n dlatM → shaped n dlonM →
  shaped n wind_direction →
  dxdy_post L GPC n limit dlatS dlonS dlatM dlonM wind_direction
    (GPF.dlatdlon2dxdy L GPC dlatS dlonS dlatM dlonM wind_direction limit).
Proof.
  intros H1 H2 H3 H4 H5. unfold GPF.dlatdlon2dxdy.
  unfold GPF.np_sin, GPF.np_cos.
  set (P := dxdy_post L GPC n limit _ _ _ _ _).
  eapply (pointwise_bind_any n _ _ _ P); [pointwise_expr|]. intros dx Hdx.
  eapply (pointwise_bind_any n _ _ _ P); [pointwise_expr|]. intros dy Hdy.
  apply pointwise_inv in Hdx as [Hsx Hgx], Hdy as [Hsy Hgy].
  destruct (distance_value n dx dy Hsx Hsy) as (dist & -> & Hw).
  cbn [mbind result_bind]. rewrite Hw. cbn [mbind result_bind].
  exists dx, dy. repeat split; auto.
Qed.

End Warnings.

Section Offsets.
Context (L : libm) (GPC : GPConstants).
Local Open Scope float_scope.

(** X1. For numbers and arrays of one common length, [dlatdlon2dxdy]
    returns, element by element,
    [dx = (dlatS - dlatM) * cos(wd * deg2rad) + (dlonS - dlonM) * sin(wd * deg2rad)]
    and
    [dy = (dlatS - dlatM) * sin(wd * deg2rad) - (dlonS - dlonM) * cos(wd * deg2rad)]. *)
Theorem dlatdlon2dxdy_formula (n : nat) (dlatS dlonS dlatM dlonM wind_direction : value)
    (limit : float) :
  shaped n dlatS → shaped n dlonS → shaped n dlatM → shaped n dlonM →
  shaped n wind_direction →
  ∃ dx dy w,
    GPF.dlatdlon2dxdy L GPC dlatS dlonS dlatM dlonM wind_direction limit = Ok (dx, dy, w)
    ∧ shaped n dx ∧ shaped n dy
    ∧ ∀ k, (k < n)%nat →
        get dx k = Formula.downwind L GPC (get dlatS k) (get dlonS k) (get dlatM k)
                     (get dlonM k) (get wind_direction k)
        ∧ get dy k = Formula.crosswind L GPC (get dlatS k) (get dlonS k) (get dlatM k)
                       (get dlonM k) (get wind_direction k).
Proof.
  intros H1 H2 H3 H4 H5.
  destruct (dlatdlon2dxdy_pointwise L GPC n dlatS dlonS dlatM dlonM wind_direction limit)
    as (dx & dy & Hcall & Hrest); try done.
  by exists dx, dy, (distance_warnings L limit dx dy).
Qed.

Lemma latlon2dlatdlon_warnings (n : nat) (lat lon latR lonR : value)
    (limit : float) (kw_lon kw_lat : option float) :
  shaped n lat → shaped n lon → shaped n latR → shaped n lonR →
  ∃ dlat dlon,
    GPF.latlon2dlatdlon L GPC lat lon latR lonR limit kw_lon kw_lat
    = Ok (dlat, dlon, distance_warnings L limit dlat dlon).
Proof.
  intros Hlat Hlon HlatR HlonR. unfold GPF.latlon2dlatdlon. cbv zeta.
  unfold GPF.np_sin, GPF.np_cos.
  set (P := λ r : result (value * value * list GPF.warning),
         ∃ dlat dlon, r = Ok (dlat, dlon, distance_warnings L limit dlat dlon)).
  eapply (pointwise_bind_any n _ _ _ P); [pointwise_expr|]. intros dlat Hdlat.
  eapply (pointwise_bind_any n _ _ _ P); [pointwise_expr|]. intros dlon Hdlon.
  apply pointwise_inv in Hdlat as [Hs1 _], Hdlon as [Hs2 _].
  destruct (distance_value L n dlat dlon Hs1 Hs2) as (dist & -> & Hw).
  cbn [mbind result_bind]. rewrite Hw. cbn [mbind result_bind].
  by exists dlat, dlon.
Qed.

(** X2. [latlon2dlatdlon] and [dlatdlon2dxdy] warn exactly when a point is
    farther than [warn_distance_above_meter]: a call gives no warning when no
    distance [sqrt(a^2 + b^2)] of its two results is above the limit, and
    otherwise one warning, which carries the limit and the number of points
    above it. *)
Theorem distance_warning_counts (n : nat) (lat lon latR lonR : value)
    (dlatS dlonS dlatM dlonM wind_direction : value)
    (limit : float) (kw_lon kw_lat : option float) :
  shaped n lat → shaped n lon → shaped n latR → shaped n lonR →
  shaped n dlatS → shaped n dlonS → shaped n dlatM → shaped n dlonM →
  shaped n wind_direction →
  (∃ dlat dlon,
     GPF.latlon2dlatdlon L GPC lat lon latR lonR limit kw_lon kw_lat
     = Ok (dlat, dlon, distance_warnings L limit dlat dlon))
  ∧ (∃ dx dy,
     GPF.dlatdlon2dxdy L GPC dlatS dlonS dlatM dlonM wind_direction limit
     = Ok (dx, dy, distance_warnings L limit dx dy)).
Proof.
  intros H1 H2 H3 H4 H5 H6 H7 H8 H9. split.
  - by apply (latlon2dlatdlon_warnings n).
  - destruct (dlatdlon2dxdy_pointwise L GPC n dlatS dlonS dlatM dlonM wind_direction limit)
      as (dx & dy & Hcall & _); try done.
    by exists dx, dy.
Qed.




End Offsets.


(** ** The stability index in [calculate_sigma] *)

Lemma py_index_wrap {A} (l : list A) (i : Z) :
  (- Z.of_nat (length l) ≤ i)%Z → py_index l i = py_index l (wrap_index (length l) i).
Proof.
  intros Hi. unfold wrap_index. case_decide as Hneg; [|done].
  unfold py_index. cbv zeta.
  rewrite (decide_False (P := (0 ≤ i < _)%Z)) by lia.
  rewrite (decide_True (P := (- _ ≤ i < 0)%Z)) by lia.
  rewrite (decide_True (P := (0 ≤ i + _ < _)%Z)) by lia. reflexivity.
Qed.

Lemma getitem2_wrap (C : table) (si : ivalue) (j : Z) :
  Forall (λ i, (- Z.of_nat (length C) ≤ i)%Z) (indices si) →
  GPF.getitem2 (Some C) si j = GPF.getitem2 (Some C) (wrap_indices (length C) si) j.
Proof.
  intros Hsi. unfold GPF.getitem2. destruct si as [i|l]; cbn [indices wrap_indices] in *.
  - apply Forall_inv in Hsi. rewrite <- (py_index_wrap C i) by exact Hsi. reflexivity.
  - f_equal. induction Hsi as [|i l Hi Hl IH]; [done|].
    cbn [fmap list_fmap map_result]. rewrite <- py_index_wrap by done.
    fold (fmap (M:=list) (wrap_index (length C))). by rewrite IH.
Qed.

Section SigmaIndex.
Context (L : libm) (GPC : GPConstants).
Local Open Scope float_scope.

Lemma sigma_formulas_wrap (C : table) (si : ivalue) (dx z0 tc off : value) (ca cb : float) :
  Forall (λ i, (- Z.of_nat (length C) ≤ i)%Z) (indices si) →
  sigma_formulas L dx z0 tc (Some C) si off ca cb
  = sigma_formulas L dx z0 tc (Some C) (wrap_indices (length C) si) off ca cb.
Proof.
  intros Hsi. unfold sigma_formulas.
  by rewrite !(getitem2_wrap C si) by done.
Qed.

(** X4. [calculate_sigma] does not validate the stability index: an
    index that is negative, but not below minus the number of rows of the
    table, selects the row counted from the end, so the call returns and
    writes what the call with that index plus the number of rows does ([-1]
    stands for the last row). *)
Theorem calculate_sigma_negative_index (h : heap) (dx z0 tc off : obj) (C : table)
    (si : ivalue) (tcmin : float) (kw_ca kw_cb : option float) :
  Forall (λ i, (- Z.of_nat (length C) ≤ i)%Z) (indices si) →
  GPF.calculate_sigma L GPC dx z0 tc (Some C) si tcmin off kw_ca kw_cb h
  = GPF.calculate_sigma L GPC dx z0 tc (Some C) (wrap_indices (length C) si) tcmin off
      kw_ca kw_cb h.
Proof.
  intros Hsi. rewrite !calculate_sigma_phases.
  apply St_bind_ext. intros [] h1.
  apply St_bind_ext. intros tc' h2.
  repeat (apply St_bind_ext; intros ? ?).
  unfold lift. by rewrite sigma_formulas_wrap.
Qed.

Lemma St_bind_inv {A B} (m : St A) (f : A → St B) (h h' : heap) (b : B) :
  (m ≫= f) h = (Ok b, h') → ∃ a h1, m h = (Ok a, h1) ∧ f a h1 = (Ok b, h').
Proof.
  unfold mbind, St_bind. destruct (m h) as [[a|e] h1]; [eauto|done].
Qed.


Lemma result_bind_inv {A B} (r : result A) (f : A → result B) (b : B) :
  r ≫= f = Ok b → ∃ a, r = Ok a ∧ f a = Ok b.
Proof. destruct r as [a|e]; simpl; [eauto|done]. Qed.




End SigmaIndex.


(** ** The distances of a [Source] *)

Section SourceDxdy.
Context (L : libm) (GPC : GPConstants).
Local Open Scope float_scope.

Lemma rop2_not_None (f : float → float → float) (ra rb : result value) (v : value) :
  rop2 f ra rb = Ok v → v ≠ VNone.
Proof.
  unfold rop2. destruct ra as [a|]; [|done]. destruct rb as [b|]; [|done]. simpl.
  destruct a as [|x|xs], b as [|y|ys]; simpl; try done; try (by intros [= <-]).
  unfold broadcast. case_decide; [by intros [= <-]|].
  destruct xs as [|x [|x' xs]], ys as [|y [|y' ys]]; try done; by intros [= <-].
Qed.

Lemma dlatdlon2dxdy_not_None (a b c d e : value) (limit : float) dx dy w :
  GPF.dlatdlon2dxdy L GPC a b c d e limit = Ok (dx, dy, w) → dx ≠ VNone ∧ dy ≠ VNone.
Proof.
  unfold GPF.dlatdlon2dxdy. intros H.
  apply result_bind_inv in H as (dx' & Hdx & H).
  apply result_bind_inv in H as (dy' & Hdy & H).
  apply result_bind_inv in H as (dist & _ & H).
  apply result_bind_inv in H as (w' & _ & H). simplify_eq.
  split; [by apply rop2_not_None in Hdx|by apply rop2_not_None in Hdy].
Qed.

Lemma alloc_inv (v : value) (h h' : heap) (o : obj) :
  alloc v h = (Ok o, h') → v ≠ VNone → o ≠ ONone.
Proof. destruct v; simpl; intros; simplify_eq; done. Qed.

(** X5. [Source.calculate_dxdy] is idempotent: after a call that
    returned, a second call changes neither the instance nor the heap. *)
Theorem calculate_dxdy_idempotent (self self' : Source.t) (h h' : heap) (r : value) :
  Source.calculate_dxdy L GPC self h = (Ok (r, self'), h') →
  Source.calculate_dxdy L GPC self' h' = (Ok (VNone, self'), h').
Proof.
  intros H.
  assert (Source.dx self' ≠ ONone ∧ Source.dy self' ≠ ONone) as [Hdx Hdy].
  { unfold Source.calculate_dxdy in H.
    destruct (negb (Source.is_None (Source.dx self)) && negb (Source.is_None (Source.dy self)))
      eqn:Hset.
    - injection H as _ <- _. apply andb_true_iff in Hset as [H1 H2].
      by destruct (Source.dx self), (Source.dy self).
    - apply St_bind_inv in H as (s1 & h1 & _ & H).
      apply St_bind_inv in H as (s2 & h2 & _ & H).
      destruct (Source.is_None (Source.wind_direction s2)); [discriminate H|].
      do 5 (apply St_bind_inv in H as (? & ? & _ & H)).
      apply St_bind_inv in H as ([[a b] w] & h3 & Hcall & H).
      apply St_bind_inv in H as (oa & h4 & Ha & H).
      apply St_bind_inv in H as (ob & h5 & Hb & H).
      unfold lift in Hcall. injection Hcall as Hcall _.
      apply dlatdlon2dxdy_not_None in Hcall as [Hna Hnb].
      apply alloc_inv in Ha; [|done]. apply alloc_inv in Hb; [|done].
      injection H as _ <- _. done. }
  unfold Source.calculate_dxdy.
  by destruct (Source.dx self'), (Source.dy self').
Qed.

End SourceDxdy.

Section SourceDxdyPhases.
Context (L : libm) (GPC : GPConstants).
Local Open Scope float_scope.

Lemma oshaped_not_None (h : heap) (n : nat) (o : obj) :
  oshaped h n o → Source.is_None o = false.
Proof. by destruct o. Qed.

Lemma ovalue_weaken (h h' : heap) (n : nat) (o : obj) :
  h ⊆ h' → oshaped h n o → ovalue h' o = ovalue h o.
Proof.
  intros Hsub. unfold oshaped. destruct o as [|x|l]; simpl; try done.
  destruct (h !! l) as [xs|] eqn:Hl; [|done].
  by rewrite (lookup_weaken _ _ _ _ Hl Hsub).
Qed.

Lemma oshaped_weaken (h h' : heap) (n : nat) (o : obj) :
  h ⊆ h' → oshaped h n o → oshaped h' n o.
Proof. intros Hsub Ho. unfold oshaped. by rewrite (ovalue_weaken h h' n). Qed.

Lemma alloc_shaped (h : heap) (n : nat) (v : value) :
  shaped n v → ∃ o h', alloc v h = (Ok o, h') ∧ h ⊆ h' ∧ ovalue h' o = v.
Proof.
  destruct v as [|x|xs]; simpl; [done| |]; intros Hv.
  - by exists (OFloat x), h.
  - exists (OArr (fresh (dom h))), (<[fresh (dom h) := xs]> h). split; [done|]. split.
    + apply insert_subseteq. apply not_elem_of_dom, is_fresh.
    + simpl. by rewrite lookup_insert_eq.
Qed.

(** Loading the coordinates, converting them and storing the two offsets. *)
Lemma latlon_phase {A} (g : obj → obj → A) (h : heap) (n : nat) (lat lon latR lonR : obj) :
  oshaped h n lat → oshaped h n lon → oshaped h n latR → oshaped h n lonR →
  ∃ a b h',
    (let@ lat := load lat in
     let@ lon := load lon in
     let@ latR := load latR in
     let@ lonR := load lonR in
     '(a, b, _) ← lift (GPF.latlon2dlatdlon L GPC lat lon latR lonR
                          Source.warn_default None None);
     a ← alloc a; b ← alloc b;
     mret (g a b)) h = (Ok (g a b), h')
    ∧ h ⊆ h' ∧ oshaped h' n a ∧ oshaped h' n b
    ∧ ∀ k, (k < n)%nat →
        oget h' a k = Spec.dNorth L GPC (latlon2dxdy_lat_conversion_factor GPC)
                        (oget h lat k) (oget h latR k)
        ∧ oget h' b k = Spec.dEast L GPC (latlon2dxdy_lon_conversion_factor GPC)
                          (oget h lat k) (oget h lon k) (oget h lonR k).
Proof.
  intros H1 H2 H3 H4.
  destruct (latlon2dlatdlon_pointwise L GPC n (ovalue h lat) (ovalue h lon)
              (ovalue h latR) (ovalue h lonR) Source.warn_default None None)
    as (dlat & dlon & w & Hcall & Hs1 & Hs2 & Hg); try done.
  destruct (alloc_shaped h n dlat Hs1) as (a & h1 & Ha & Hsub1 & Hva).
  destruct (alloc_shaped h1 n dlon Hs2) as (b & h2 & Hb & Hsub2 & Hvb).
  exists a, b, h2.
  assert (ovalue h2 a = dlat) as Hva2.
  { rewrite (ovalue_weaken h1 h2 n); [done..|]. unfold oshaped. by rewrite Hva. }
  split; [|split; [by etrans|split; [|split]]].
  - do 4 (erewrite St_bind_ok by (by eapply load_ovalue)).
    unfold lift at 1. unfold mbind at 1, St_bind at 1. rewrite Hcall.
    erewrite St_bind_ok by exact Ha. erewrite St_bind_ok by exact Hb. reflexivity.
  - unfold oshaped. by rewrite Hva2.
  - unfold oshaped. by rewrite Hvb.
  - intros k Hk. unfold oget. rewrite Hva2, Hvb. by apply Hg.
Qed.

Lemma dxdy_phase {A} (g : obj → obj → A) (h : heap) (n : nat)
    (dlatS dlonS dlatM dlonM wind_direction : obj) :
  oshaped h n dlatS → oshaped h n dlonS → oshaped h n dlatM → oshaped h n dlonM →
  oshaped h n wind_direction →
  ∃ a b h',
    (let@ dlatS := load dlatS in
     let@ dlonS := load dlonS in
     let@ dlatM := load dlatM in
     let@ dlonM := load dlonM in
     let@ wind_direction := load wind_direction in
     '(a, b, _) ← lift (GPF.dlatdlon2dxdy L GPC dlatS dlonS dlatM dlonM wind_direction
                          Source.warn_default);
     a ← alloc a; b ← alloc b;
     mret (g a b)) h = (Ok (g a b), h')
    ∧ h ⊆ h' ∧ oshaped h' n a ∧ oshaped h' n b
    ∧ ∀ k, (k < n)%nat →
        oget h' a k = Formula.downwind L GPC (oget h dlatS k) (oget h dlonS k)
                        (oget h dlatM k) (oget h dlonM k) (oget h wind_direction k)
        ∧ oget h' b k = Formula.crosswind L GPC (oget h dlatS k) (oget h dlonS k)
                          (oget h dlatM k) (oget h dlonM k) (oget h wind_direction k).
Proof.
  intros H1 H2 H3 H4 H5.
  destruct (dlatdlon2dxdy_pointwise L GPC n (ovalue h dlatS) (ovalue h dlonS)
              (ovalue h dlatM) (ovalue h dlonM) (ovalue h wind_direction)
              Source.warn_default)
    as (dx & dy & Hcall & Hs1 & Hs2 & Hg); try done.
  destruct (alloc_shaped h n dx Hs1) as (a & h1 & Ha & Hsub1 & Hva).
  destruct (alloc_shaped h1 n dy Hs2) as (b & h2 & Hb & Hsub2 & Hvb).
  exists a, b, h2.
  assert (ovalue h2 a = dx) as Hva2.
  { rewrite (ovalue_weaken h1 h2 n); [done..|]. unfold oshaped. by rewrite Hva. }
  split; [|split; [by etrans|split; [|split]]].
  - do 5 (erewrite St_bind_ok by (by eapply load_ovalue)).
    unfold lift at 1. unfold mbind at 1, St_bind at 1. rewrite Hcall.
    erewrite St_bind_ok by exact Ha. erewrite St_bind_ok by exact Hb. reflexivity.
  - unfold oshaped. by rewrite Hva2.
  - unfold oshaped. by rewrite Hvb.
  - intros k Hk. unfold oget. rewrite Hva2, Hvb. by apply Hg.
Qed.

End SourceDxdyPhases.

Section SourceDxdyResult.
Context (L : libm) (GPC : GPConstants).
Local Open Scope float_scope.

(** X6. With [dx] or [dy] unset, an offset of the source and an offset
    of the measurement unset, and the six coordinates and the wind direction
    numbers or arrays of one length, [Source.calculate_dxdy] returns [None] and
    sets [dlatS], [dlonS], [dlatM], [dlonM] to the offsets of
    [latlon2dlatdlon] (with the conversion factors of [GPConstants]) and [dx],
    [dy] to their rotation into the wind frame, element by element; a [dx]
    given without [dy] is overwritten.  What the heap held is untouched. *)
Theorem calculate_dxdy_from_coordinates (self : Source.t) (h : heap) (n : nat) :
  Source.dx self = ONone ∨ Source.dy self = ONone →
  Source.dlatS self = ONone ∨ Source.dlonS self = ONone →
  Source.dlatM self = ONone ∨ Source.dlonM self = ONone →
  Forall (oshaped h n)
    [Source.latS self; Source.lonS self; Source.latM self; Source.lonM self;
     Source.latR self; Source.lonR self; Source.wind_direction self] →
  ∃ dlatS dlonS dlatM dlonM dx dy h',
    Source.calculate_dxdy L GPC self h
    = (Ok (VNone, Source.set_dx_dy
                    (Source.set_dlatM_dlonM (Source.set_dlatS_dlonS self dlatS dlonS)
                       dlatM dlonM) dx dy), h')
    ∧ h ⊆ h'
    ∧ Forall (oshaped h' n) [dlatS; dlonS; dlatM; dlonM; dx; dy]
    ∧ ∀ k, (k < n)%nat →
        let nS := north_of L GPC h (Source.latS self) (Source.latR self) k in
        let eS := east_of L GPC h (Source.latS self) (Source.lonS self) (Source.lonR self) k in
        let nM := north_of L GPC h (Source.latM self) (Source.latR self) k in
        let eM := east_of L GPC h (Source.latM self) (Source.lonM self) (Source.lonR self) k in
        oget h' dlatS k = nS ∧ oget h' dlonS k = eS
        ∧ oget h' dlatM k = nM ∧ oget h' dlonM k = eM
        ∧ oget h' dx k
          = Formula.downwind L GPC nS eS nM eM (oget h (Source.wind_direction self) k)
        ∧ oget h' dy k
          = Formula.crosswind L GPC nS eS nM eM (oget h (Source.wind_direction self) k).
Proof.
  intros Hxy HS HM Hall.
  repeat (apply Forall_cons in Hall as [? Hall]).
  destruct (latlon_phase L GPC (Source.set_dlatS_dlonS self) h n
              (Source.latS self) (Source.lonS self) (Source.latR self) (Source.lonR self))
    as (a & b & h1 & HphaseS & Hsub1 & Hsa & Hsb & HgS); try done.
  set (s1 := Source.set_dlatS_dlonS self a b) in *.
  destruct (latlon_phase L GPC (Source.set_dlatM_dlonM s1) h1 n
              (Source.latM self) (Source.lonM self) (Source.latR self) (Source.lonR self))
    as (c & d & h2 & HphaseM & Hsub2 & Hsc & Hsd & HgM);
    try (by apply (oshaped_weaken h h1)).
  assert (h ⊆ h2) as Hsub02 by (by etrans).
  set (s2 := Source.set_dlatM_dlonM s1 c d) in *.
  destruct (dxdy_phase L GPC (λ x y, (VNone, Source.set_dx_dy s2 x y)) h2 n
              a b c d (Source.wind_direction self))
    as (x & y & h3 & Hphase & Hsub3 & Hsx & Hsy & Hg);
    try done; try (by apply (oshaped_weaken h1 h2)); try (by apply (oshaped_weaken h h2)).
  assert (h1 ⊆ h3) as Hsub13 by (by etrans).
  exists a, b, c, d, x, y, h3.
  split; [|split; [by etrans|split]].
  - unfold Source.calculate_dxdy.
    assert (negb (Source.is_None (Source.dx self)) && negb (Source.is_None (Source.dy self))
            = false) as ->.
    { destruct Hxy as [-> | ->]; [done|]. by rewrite andb_false_r. }
    assert (Source.is_None (Source.dlatS self) || Source.is_None (Source.dlonS self) = true)
      as ->.
    { destruct HS as [-> | ->]; [done|]. by rewrite orb_true_r. }
    rewrite !(oshaped_not_None h n) by done. cbn [negb andb].
    erewrite St_bind_ok by exact HphaseS. fold s1.
    change (Source.dlatM s1) with (Source.dlatM self).
    change (Source.dlonM s1) with (Source.dlonM self).
    change (Source.latM s1) with (Source.latM self).
    change (Source.lonM s1) with (Source.lonM self).
    change (Source.latR s1) with (Source.latR self).
    change (Source.lonR s1) with (Source.lonR self).
    assert (Source.is_None (Source.dlatM self) || Source.is_None (Source.dlonM self) = true)
      as ->.
    { destruct HM as [-> | ->]; [done|]. by rewrite orb_true_r. }
    rewrite !(oshaped_not_None h n) by done. cbn [negb andb].
    erewrite St_bind_ok by exact HphaseM. fold s2.
    change (Source.wind_direction s2) with (Source.wind_direction self).
    rewrite (oshaped_not_None h n) by done.
    exact Hphase.
  - repeat constructor; try done;
      try (by apply (oshaped_weaken h2 h3)); by apply (oshaped_weaken h1 h3).
  - intros k Hk. cbv zeta. unfold north_of, east_of.
    destruct (HgS k Hk) as [E1 E2]. destruct (HgM k Hk) as [E3 E4].
    destruct (Hg k Hk) as [E5 E6].
    assert (∀ o, oshaped h1 n o → oget h3 o k = oget h1 o k) as W13.
    { intros o Ho. unfold oget. rewrite (ovalue_weaken h1 h3 n); [done|by etrans|done]. }
    assert (∀ o, oshaped h2 n o → oget h3 o k = oget h2 o k) as W23.
    { intros o Ho. unfold oget. by rewrite (ovalue_weaken h2 h3 n). }
    assert (∀ o, oshaped h1 n o → oget h2 o k = oget h1 o k) as W12.
    { intros o Ho. unfold oget. by rewrite (ovalue_weaken h1 h2 n). }
    assert (∀ o, oshaped h n o → oget h1 o k = oget h o k) as W01.
    { intros o Ho. unfold oget. by rewrite (ovalue_weaken h h1 n). }
    assert (∀ o, oshaped h n o → oget h2 o k = oget h o k) as W02.
    { intros o Ho. unfold oget. rewrite (ovalue_weaken h h2 n); [done|by etrans|done]. }
    rewrite !W01 in E3, E4 by done.
    rewrite E5, E6.
    rewrite (W12 a), (W12 b), (W02 (Source.wind_direction self)) by done.
    rewrite (W13 a), (W13 b), (W23 c), (W23 d) by done.
    rewrite E1, E2, E3, E4. rewrite !(W01 (Source.lonR self)) by done. done.
Qed.

End SourceDxdyResult.


(** ** The data frame of a [Plume] *)

Lemma arr_result_value (xs : list float) : arr_result (of_value (Arr xs)).
Proof. intros v [= <-]. by exists xs. Qed.

Lemma arr_result_rop1 (f : float → float) (r : result value) :
  arr_result r → arr_result (rop1 f r).
Proof.
  intros Hr v Hv. unfold rop1 in Hv. apply result_bind_inv in Hv as (a & Ha & Hv).
  destruct (Hr a Ha) as [xs ->]. simpl in Hv. simplify_eq. by eexists.
Qed.

Lemma lift2_arr (f : float → float → float) (a b v : value) :
  lift2 f a b = Ok v → is_arr a ∨ is_arr b → is_arr v.
Proof.
  intros Hv Hab.
  destruct a as [|x|xs], b as [|y|ys]; simpl in Hv; simplify_eq;
    try (by eexists); try (by destruct Hab as [[? ?]|[? ?]]).
  unfold broadcast in Hv. case_decide; [simplify_eq; by eexists|].
  destruct xs as [|x [|x' xs]], ys as [|y [|y' ys]]; simplify_eq; by eexists.
Qed.

Lemma arr_result_rop2_l (f : float → float → float) (ra rb : result value) :
  arr_result ra → arr_result (rop2 f ra rb).
Proof.
  intros Hr v Hv. unfold rop2 in Hv. apply result_bind_inv in Hv as (a & Ha & Hv).
  apply result_bind_inv in Hv as (b & Hb & Hv).
  eapply lift2_arr; [exact Hv|]. left. by apply Hr.
Qed.

Lemma arr_result_rop2_r (f : float → float → float) (ra rb : result value) :
  arr_result rb → arr_result (rop2 f ra rb).
Proof.
  intros Hr v Hv. unfold rop2 in Hv. apply result_bind_inv in Hv as (a & Ha & Hv).
  apply result_bind_inv in Hv as (b & Hb & Hv).
  eapply lift2_arr; [exact Hv|]. right. by apply Hr.
Qed.

Global Hint Resolve arr_result_value arr_result_rop1 arr_result_rop2_l arr_result_rop2_r : arr.

Section ArrayResults.
Context (L : libm) (GPC : GPConstants).
Local Open Scope float_scope.

Lemma latlon2dlatdlon_arr (lat : list float) (lon latR lonR : value) (limit : float)
    (kw_lon kw_lat : option float) (dlat dlon : value) (w : list GPF.warning) :
  GPF.latlon2dlatdlon L GPC (Arr lat) lon latR lonR limit kw_lon kw_lat = Ok (dlat, dlon, w) →
  is_arr dlat ∧ is_arr dlon.
Proof.
  unfold GPF.latlon2dlatdlon, GPF.np_sin, GPF.np_cos. cbv zeta. intros H.
  apply result_bind_inv in H as (a & Ha & H).
  apply result_bind_inv in H as (b & Hb & H).
  apply result_bind_inv in H as (dist & _ & H).
  apply result_bind_inv in H as (w' & _ & H). simplify_eq. split.
  - revert Ha. generalize dlat. change (arr_result (rop2 PrimFloat.mul
      (rop1 (libm_sin L) (rop2 PrimFloat.mul (rop2 PrimFloat.sub (of_value (Arr lat)) (of_value latR)) (of_value (Num (deg2rad GPC)))))
      (of_value (Num (default (latlon2dxdy_lat_conversion_factor GPC) kw_lat))))).
    eauto 10 with arr.
  - revert Hb. generalize dlon. 
    match goal with |- ∀ v, ?r = Ok v → is_arr v => change (arr_result r) end.
    eauto 10 with arr.
Qed.

Lemma dlatdlon2dxdy_arr (dlatS : list float) (dlonS dlatM dlonM wd : value) (limit : float)
    (dx dy : value) (w : list GPF.warning) :
  GPF.dlatdlon2dxdy L GPC (Arr dlatS) dlonS dlatM dlonM wd limit = Ok (dx, dy, w) →
  is_arr dx ∧ is_arr dy.
Proof.
  unfold GPF.dlatdlon2dxdy, GPF.np_sin, GPF.np_cos. intros H.
  apply result_bind_inv in H as (a & Ha & H).
  apply result_bind_inv in H as (b & Hb & H).
  apply result_bind_inv in H as (dist & _ & H).
  apply result_bind_inv in H as (w' & _ & H). simplify_eq. split.
  - revert Ha. generalize dx.
    match goal with |- ∀ v, ?r = Ok v → is_arr v => change (arr_result r) end.
    eauto 10 with arr.
  - revert Hb. generalize dy.
    match goal with |- ∀ v, ?r = Ok v → is_arr v => change (arr_result r) end.
    eauto 10 with arr.
Qed.

End ArrayResults.

Lemma loc_column_present (d : Plume.DataFrame) (c : string) (n : nat) :
  frame_rows n d → c ∈ Plume.columns d →
  Plume.loc_column d c = Ok (Arr (column d c)) ∧ length (column d c) = n.
Proof.
  unfold Plume.loc_column, column, Plume.columns, frame_rows.
  induction 1 as [|[c' xs] d Hc Hd IH]; simpl; intros Hin.
  - by apply elem_of_nil in Hin.
  - case_decide as Heq; simpl in *; [done|].
    apply elem_of_cons in Hin as [->|Hin]; [done|].
    destruct (IH Hin) as [IH1 IH2].
    destruct (list_find _ d) as [[i x]|]; simpl in *; [done|done].
Qed.

Section FrameValues.
Context (L : libm) (GPC : GPConstants).
Local Open Scope float_scope.

Lemma prepare_dxdy_values (self : Plume.t) (d : Plume.DataFrame)
    (env : list (string * Call.arg)) (n : nat) :
  Plume.df self = Some d → frame_rows n d →
  "dx" ∉ Plume.columns d ∨ "dy" ∉ Plume.columns d →
  Forall (λ c, c ∈ Plume.columns d) coordinate_columns →
  ∃ dx dy,
    length dx = n ∧ length dy = n
    ∧ (∀ k, (k < n)%nat → dx !! k = Some (frame_dx L GPC d k) ∧ dy !! k = Some (frame_dy L GPC d k))
    ∧ Plume.calculate_concentration_prepare_dxdy L GPC self env
      = (d1 ← Plume.insert d (length d) "dy" (Arr dy);
         d2 ← Plume.insert d1 (length d) "dx" (Arr dx);
         Ok (VNone, Plume.set_df self d2)).
Proof.
  intros Hdf Hrows Hmiss Hcols. unfold coordinate_columns in Hcols.
  repeat (apply Forall_cons in Hcols as [? Hcols]).
  destruct (loc_column_present d "latS" n) as [ElatS LlatS]; [done..|].
  destruct (loc_column_present d "lonS" n) as [ElonS LlonS]; [done..|].
  destruct (loc_column_present d "latM" n) as [ElatM LlatM]; [done..|].
  destruct (loc_column_present d "lonM" n) as [ElonM LlonM]; [done..|].
  destruct (loc_column_present d "latR" n) as [ElatR LlatR]; [done..|].
  destruct (loc_column_present d "lonR" n) as [ElonR LlonR]; [done..|].
  destruct (loc_column_present d "wind_direction" n) as [Ewd Lwd]; [done..|].
  destruct (latlon2dlatdlon_pointwise L GPC n (Arr (column d "latM")) (Arr (column d "lonM"))
              (Arr (column d "latR")) (Arr (column d "lonR")) Source.warn_default None None)
    as (dlatM & dlonM & wM & HM & HsM1 & HsM2 & HgM); try done.
  destruct (latlon2dlatdlon_arr L GPC _ _ _ _ _ _ _ _ _ _ HM) as [[nM ->] [eM ->]].
  destruct (latlon2dlatdlon_pointwise L GPC n (Arr (column d "latS")) (Arr (column d "lonS"))
              (Arr (column d "latR")) (Arr (column d "lonR")) Source.warn_default None None)
    as (dlatS & dlonS & wS & HS & HsS1 & HsS2 & HgS); try done.
  destruct (latlon2dlatdlon_arr L GPC _ _ _ _ _ _ _ _ _ _ HS) as [[nS ->] [eS ->]].
  destruct (dlatdlon2dxdy_pointwise L GPC n (Arr nS) (Arr eS) (Arr nM) (Arr eM)
              (Arr (column d "wind_direction")) Source.warn_default)
    as (dx & dy & Hxy & Hsx & Hsy & Hg); try done.
  destruct (dlatdlon2dxdy_arr L GPC _ _ _ _ _ _ _ _ _ Hxy) as [[xs ->] [ys ->]].
  exists xs, ys. split; [done|]. split; [done|]. split.
  - intros k Hk. simpl in Hsx, Hsy.
    destruct (Hg k Hk) as [E1 E2]. destruct (HgS k Hk) as [E3 E4].
    destruct (HgM k Hk) as [E5 E6].
    destruct (lookup_lt_is_Some_2 xs k) as [x Hx]; [lia|].
    destruct (lookup_lt_is_Some_2 ys k) as [y Hy]; [lia|].
    change (get (Arr xs) k) with (default nan (xs !! k)) in E1.
    change (get (Arr ys) k) with (default nan (ys !! k)) in E2.
    rewrite Hx in E1. rewrite Hy in E2. cbn [default from_option id] in E1, E2.
    cbn [default] in E3, E4, E5, E6.
    rewrite Hx, Hy, E1, E2. unfold frame_dx, frame_dy, frame_north, frame_east.
    by rewrite E3, E4, E5, E6.
  - unfold Plume.calculate_concentration_prepare_dxdy, Plume.get_df.
    rewrite Hdf. cbn [of_option mbind result_bind].
    assert (bool_decide ("dx" ∉ Plume.columns d) || bool_decide ("dy" ∉ Plume.columns d)
            = true) as ->.
    { destruct Hmiss as [Hm|Hm]; rewrite (bool_decide_eq_true_2 _ Hm); [done|].
      by rewrite orb_true_r. }
    rewrite !bool_decide_eq_true_2 by done. cbn [andb].
    rewrite ElatM, ElonM, ElatR, ElonR. cbn [mbind result_bind].
    rewrite HM. cbn [mbind result_bind].
    rewrite ElatS, ElonS. cbn [mbind result_bind].
    rewrite HS. cbn [mbind result_bind].
    rewrite Ewd. cbn [mbind result_bind].
    rewrite Hxy. cbn [mbind result_bind].
    unfold Plume.columns. rewrite length_fmap. reflexivity.
Qed.

End FrameValues.

Lemma nrows_frame (n : nat) (d : Plume.DataFrame) :
  frame_rows n d → d ≠ [] → Plume.nrows d = n.
Proof. destruct 1; [done|]. done. Qed.

Lemma insert_at_end (d : Plume.DataFrame) (c : string) (xs : list float) :
  c ∉ Plume.columns d → (d ≠ [] → length xs = Plume.nrows d) →
  Plume.insert d (length d) c (Arr xs) = Ok (d ++ [(c, xs)]).
Proof.
  intros Hc Hlen. unfold Plume.insert.
  rewrite decide_False by done. rewrite decide_False by lia.
  rewrite decide_False by (intros [? ?]; auto).
  by rewrite take_ge, drop_ge by lia.
Qed.

Lemma insert_before_last (d : Plume.DataFrame) (e : string * list float) (c : string)
    (xs : list float) :
  c ∉ Plume.columns (d ++ [e]) → d ≠ [] → length xs = Plume.nrows d →
  Plume.insert (d ++ [e]) (length d) c (Arr xs) = Ok (d ++ [(c, xs); e]).
Proof.
  intros Hc Hd Hlen. unfold Plume.insert.
  rewrite decide_False by done. rewrite decide_False by (rewrite length_app; lia).
  rewrite decide_False.
  - by rewrite take_app_length, drop_app_length.
  - intros [_ Hne]. apply Hne. rewrite Hlen. by destruct d.
Qed.

Lemma insert_present (d : Plume.DataFrame) (loc : nat) (c : string) (v : value) :
  c ∈ Plume.columns d →
  Plume.insert d loc c v = Raise (ValueError ("cannot insert " +:+ c +:+ ", already exists")).
Proof. intros Hc. unfold Plume.insert. by rewrite decide_True. Qed.

Section Preparation.
Context (L : libm) (GPC : GPConstants).
Local Open Scope float_scope.

Lemma frame_not_empty (d : Plume.DataFrame) :
  Forall (λ c, c ∈ Plume.columns d) coordinate_columns → d ≠ [].
Proof. intros H ->. apply Forall_inv in H. by apply elem_of_nil in H. Qed.

(** X7. For a data frame without the columns [dx] and [dy] that has the
    six coordinate columns and [wind_direction],
    [calculate_concentration_prepare_dxdy] returns [None] and appends two
    columns, [dx] and then [dy], after the existing ones, which stay as they
    are; row by row the new columns hold the offsets of source and
    measurement rotated into the wind frame. *)
Theorem prepare_dxdy_computes (self : Plume.t) (d : Plume.DataFrame)
    (env : list (string * Call.arg)) (n : nat) :
  Plume.df self = Some d → frame_rows n d → NoDup (Plume.columns d) →
  "dx" ∉ Plume.columns d → "dy" ∉ Plume.columns d →
  Forall (λ c, c ∈ Plume.columns d) coordinate_columns →
  ∃ dx dy,
    Plume.calculate_concentration_prepare_dxdy L GPC self env
    = Ok (VNone, Plume.set_df self (d ++ [("dx", dx); ("dy", dy)]))
    ∧ length dx = n ∧ length dy = n
    ∧ ∀ k, (k < n)%nat →
        dx !! k = Some (frame_dx L GPC d k) ∧ dy !! k = Some (frame_dy L GPC d k).
Proof.
  intros Hdf Hrows _ Hx Hy Hcols.
  destruct (prepare_dxdy_values L GPC self d env n) as (dx & dy & Lx & Ly & Hg & ->);
    [done|done|by left|done|].
  pose proof (frame_not_empty d Hcols) as Hne.
  pose proof (nrows_frame n d Hrows Hne) as Hn.
  exists dx, dy. split; [|done].
  rewrite insert_at_end by (done || (intros; congruence)). cbn [mbind result_bind].
  rewrite insert_before_last; [done| |done|congruence].
  unfold Plume.columns. rewrite fmap_app. intros [Hin|Hin]%elem_of_app; [done|].
  by apply list_elem_of_singleton in Hin.
Qed.

(** X8. When exactly one of the columns [dx] and [dy] is present (and
    the coordinate columns are), [calculate_concentration_prepare_dxdy]
    computes both and fails on inserting the one that exists: it raises the
    [ValueError] of [DataFrame.insert]. *)
Theorem prepare_dxdy_one_present (self : Plume.t) (d : Plume.DataFrame)
    (env : list (string * Call.arg)) (n : nat) :
  Plume.df self = Some d → frame_rows n d → NoDup (Plume.columns d) →
  Forall (λ c, c ∈ Plume.columns d) coordinate_columns →
  ("dx" ∈ Plume.columns d → "dy" ∉ Plume.columns d →
   Plume.calculate_concentration_prepare_dxdy L GPC self env
   = Raise (ValueError "cannot insert dx, already exists"))
  ∧ ("dy" ∈ Plume.columns d → "dx" ∉ Plume.columns d →
     Plume.calculate_concentration_prepare_dxdy L GPC self env
     = Raise (ValueError "cannot insert dy, already exists")).
Proof.
  intros Hdf Hrows _ Hcols.
  pose proof (frame_not_empty d Hcols) as Hne.
  pose proof (nrows_frame n d Hrows Hne) as Hn.
  split.
  - intros Hx Hy.
    destruct (prepare_dxdy_values L GPC self d env n) as (dx & dy & Lx & Ly & Hg & ->);
      [done|done|by right|done|].
    rewrite insert_at_end by (done || (intros; congruence)). cbn [mbind result_bind].
    rewrite insert_present; [done|].
    unfold Plume.columns. rewrite fmap_app. apply elem_of_app. by left.
  - intros Hy Hx.
    destruct (prepare_dxdy_values L GPC self d env n) as (dx & dy & Lx & Ly & Hg & ->);
      [done|done|by left|done|].
    by rewrite insert_present.
Qed.

(** X9. [calculate_concentration_prepare_tc] never computes the travel
    time: it returns only when the column [tc] is present, and then leaves the
    instance as it is (the function it calls for the computation,
    [GPF.calculate_Tc], does not exist). *)
Theorem prepare_tc_never_computes (self : Plume.t) (env : list (string * Call.arg))
    (r : value * Plume.t) :
  Plume.calculate_concentration_prepare_tc self env = Ok r →
  r = (VNone, self) ∧ ∃ d, Plume.df self = Some d ∧ "tc" ∈ Plume.columns d.
Proof.
  unfold Plume.calculate_concentration_prepare_tc, Plume.get_df.
  destruct (Plume.df self) as [d|]; [|done]. cbn [of_option mbind result_bind].
  case_bool_decide as Htc.
  - by destruct (_ && _).
  - intros [= <-]. split; [done|]. exists d. split; [done|].
    by destruct (decide ("tc" ∈ Plume.columns d)).
Qed.

(** X10. [calculate_concentration_prepare_dispersion_constants] never
    fetches the constants: with [dispersion_constants] unset and [mode] set it
    raises a [TypeError], [get_dispersion_constants] having no parameter
    [mode]; it returns only when the constants are set already, and then
    leaves the instance as it is. *)
Theorem prepare_dispersion_constants_never_fetches (self : Plume.t)
    (env : list (string * Call.arg)) :
  (∀ m, Plume.dispersion_constants self = None → Plume.mode self = Some m →
     Plume.calculate_concentration_prepare_dispersion_constants GPC self env
     = Raise (TypeError (UnexpectedKeyword "mode")))
  ∧ (∀ r, Plume.calculate_concentration_prepare_dispersion_constants GPC self env = Ok r →
       r = (VNone, self) ∧ is_Some (Plume.dispersion_constants self)).
Proof.
  unfold Plume.calculate_concentration_prepare_dispersion_constants. split.
  - intros m -> ->. reflexivity.
  - intros r. destruct (Plume.dispersion_constants self) as [c|].
    + intros [= <-]. eauto.
    + by destruct (Plume.mode self).
Qed.

Lemma map_result_Forall2 {A B} (f : A → result B) (l : list A) (l' : list B) :
  map_result f l = Ok l' → Forall2 (λ a b, f a = Ok b) l l'.
Proof.
  revert l'. induction l as [|a l IH]; simpl; intros l' H.
  - simplify_eq. constructor.
  - apply result_bind_inv in H as (b & Hb & H).
    apply result_bind_inv in H as (bs & Hbs & H). simplify_eq.
    constructor; auto.
Qed.

(** X11. When [calculate_concentration_get_molecular_properties] returns,
    it returns [None], the list of molecules is not empty, and either
    [molecular_mass] was set and the instance is unchanged (the masses are not
    compared with the molecules), or the properties of the molecules, in their
    order, and their molecular masses have been stored; a second call changes
    nothing. *)
Theorem get_molecular_properties_result (self self' : Plume.t)
    (env : list (string * Call.arg)) (r : value) :
  Plume.calculate_concentration_get_molecular_properties GPC self env = Ok (r, self') →
  r = VNone
  ∧ (∃ m ms, Plume.molecules self = Some (m :: ms))
  ∧ (is_Some (Plume.molecular_mass self) → self' = self)
  ∧ (Plume.molecular_mass self = None →
     ∃ props,
       self' = Plume.set_molecular self props (get_molecular_mass <$> props)
       ∧ Forall2 (λ m p, molecule_properties GPC m = Ok p)
           (default [] (Plume.molecules self)) props)
  ∧ Plume.calculate_concentration_get_molecular_properties GPC self' env = Ok (VNone, self').
Proof.
  unfold Plume.calculate_concentration_get_molecular_properties.
  destruct (Plume.molecules self) as [[|m ms]|] eqn:Hms; [done| |done].
  destruct (Plume.molecular_mass self) as [mass|] eqn:Hmass.
  - intros [= <- <-]. rewrite Hms, Hmass. repeat split; eauto. done.
  - intros H. apply result_bind_inv in H as (props & Hprops & H). simplify_eq.
    cbn [Plume.molecules Plume.molecular_mass Plume.set_molecular]. rewrite Hms.
    repeat split; eauto.
    + by intros [? ?].
    + intros _. exists props. split; [done|]. by apply map_result_Forall2.
Qed.

End Preparation.


(** ** numpy string scalars *)

Lemma where_equal_np_other (s sc : string) :
  s ≠ sc → GPF.where_equal (CNpStr s) sc = [].
Proof. intros H. unfold GPF.where_equal. simpl. by rewrite bool_decide_eq_false_2. Qed.

Lemma class2index_body_np_other (s : string) (idx : list Z) (sc_i : nat) (sc : string) :
  s ≠ sc → s ≠ lower sc → GPF.class2index_body (CNpStr s) idx sc_i sc = Ok idx.
Proof.
  intros H1 H2. unfold GPF.class2index_body.
  rewrite !where_equal_np_other by done. reflexivity.
Qed.

Lemma class2index_loop_np_other (s : string) (idx : list Z) :
  s ∉ class_letters →
  for_enumerate (GPF.class2index_body (CNpStr s)) 0 GPF.stability_classes idx = Ok idx.
Proof.
  intros Hs. unfold GPF.stability_classes. cbn [for_enumerate].
  repeat (rewrite class2index_body_np_other;
          [cbn [mbind result_bind]
          |intros ->; apply Hs; apply (bool_decide_unpack _); vm_compute; exact I
          |intros ->; apply Hs; apply (bool_decide_unpack _); vm_compute; exact I]).
  reflexivity.
Qed.

Lemma true_positions_replicate (i n : nat) :
  true_positions i (replicate n true) = seq i n.
Proof. revert i. induction n as [|n IH]; intros i; simpl; [done|]. by rewrite IH. Qed.

Lemma class2index_np_invalid (s : string) :
  s ∉ class_letters →
  GPF.stability_class2index (CNpStr s)
  = if decide (s = EmptyString) then Ok (IArr [])
    else Raise (ValueError
           (if decide (String.length s < 3)
            then foldl (λ msg v, msg +:+ " " +:+ v) "Invalid inputs for stability_class:"
                   (characters s)
            else pretty (String.length s) +:+ " invalid inputs for stability_class")).
Proof.
  intros Hs. unfold GPF.stability_class2index. cbn [GPF.class_len].
  rewrite class2index_loop_np_other by done. cbn [mbind result_bind].
  rewrite fmap_replicate. rewrite bool_decide_eq_true_2 by done.
  unfold np_where. rewrite true_positions_replicate, length_seq.
  destruct s as [|c1 [|c2 [|c3 s]]]; reflexivity.
Qed.

Lemma class2index_np_valid (s : string) :
  s ∈ class_letters → GPF.stability_class2index (CNpStr s) = Ok (IArr [class_code s]).
Proof.
  intros H. unfold class_letters, GPF.stability_classes in H. cbn in H. eval_lower.
  repeat (apply elem_of_cons in H as [->|H]; [vm_compute; done|]).
  by apply elem_of_nil in H.
Qed.

(** X12. A numpy string scalar is not a [str], so it takes the array
    branch of [stability_class2index]: a class letter in either case gives the
    one-element array of its index; the empty string gives the empty array,
    without an error; any other string raises a [ValueError] whose message
    lists the characters of the string when they are at most two and gives
    their number otherwise. *)
Theorem stability_class2index_numpy_string (s : string) :
  (s ∈ class_letters → GPF.stability_class2index (CNpStr s) = Ok (IArr [class_code s]))
  ∧ GPF.stability_class2index (CNpStr EmptyString) = Ok (IArr [])
  ∧ (s ∉ class_letters → s ≠ EmptyString →
     GPF.stability_class2index (CNpStr s)
     = Raise (ValueError
         (if decide (String.length s ≤ 2)
          then foldl (λ msg v, msg +:+ " " +:+ v) "Invalid inputs for stability_class:"
                 (characters s)
          else pretty (String.length s) +:+ " invalid inputs for stability_class"))).
Proof.
  split; [apply class2index_np_valid|]. split; [reflexivity|].
  intros Hs Hne. rewrite class2index_np_invalid by done.
  rewrite decide_False by done. do 2 f_equal.
  destruct (decide (String.length s < 3)), (decide (String.length s ≤ 2)); try done; lia.
Qed.

(** ** File names and paths *)

Section PathLoops.
Context {P : Type} (Path : string → P) (joinpath : P → P → P).

Local Abbreviation to_path := (GPF.to_path Path).
Local Abbreviation handle := (GPF.handle_filename_path Path joinpath).

Lemma to_path_loop (pre rest : list (GPF.entry P)) :
  for_enumerate (GPF.to_path_body Path) (length pre) rest (pre ++ rest)
  = ps ← map_result to_path rest; Ok (pre ++ (GPF.EPath <$> ps)).
Proof.
  revert pre. induction rest as [|fn rest IH]; intros pre; [done|].
  cbn [for_enumerate map_result].
  assert (∀ p, to_path fn = Ok p →
            GPF.to_path_body Path (pre ++ fn :: rest) (length pre) fn
            = Ok ((pre ++ [GPF.EPath p]) ++ rest)) as Hbody.
  { intros p Hp. rewrite <- (assoc_L (++)). simpl.
    destruct fn as [s|q|]; simpl in *; simplify_eq; [|done].
    rewrite insert_app_r_alt by lia. by rewrite Nat.sub_diag. }
  destruct (to_path fn) as [p|e] eqn:Hp.
  - rewrite (Hbody p eq_refl). cbn [mbind result_bind].
    specialize (IH (pre ++ [GPF.EPath p])). rewrite length_app in IH. simpl in IH.
    rewrite Nat.add_1_r in IH. rewrite IH.
    destruct (map_result to_path rest) as [ps|e]; [|done]. simpl.
    by rewrite <- (assoc_L (++)).
  - destruct fn as [s|q|]; simpl in *; simplify_eq. reflexivity.
Qed.

Lemma to_path_paths (ps : list P) : map_result to_path (GPF.EPath <$> ps) = Ok ps.
Proof.
  induction ps as [|p ps IH]; [done|].
  cbn [fmap list_fmap map_result GPF.to_path mbind result_bind].
  fold (fmap (M:=list) (@GPF.EPath P)). by rewrite IH.
Qed.

Lemma join_list_loop (ps : list P) (dirs acc : list (GPF.entry P)) (i : nat) :
  i + length dirs ≤ length ps →
  for_enumerate
    (λ paf p_i p,
       p ← to_path p;
       f ← of_option OutOfBounds ((GPF.EPath <$> ps) !! p_i);
       r ← GPF.joinpath_entry Path joinpath p f;
       Ok (paf ++ [GPF.EPath r]))
    i dirs acc
  = ds ← map_result to_path dirs;
    Ok (acc ++ zip_with (λ d f, GPF.EPath (joinpath d f)) ds (drop i ps)).
Proof.
  revert i acc. induction dirs as [|dir dirs IH]; intros i acc Hlen.
  - simpl. by rewrite app_nil_r.
  - cbn [for_enumerate map_result]. simpl in Hlen.
    destruct (to_path dir) as [d|e]; [|done]. cbn [mbind result_bind].
    destruct (lookup_lt_is_Some_2 ps i) as [f Hf]; [lia|].
    rewrite list_lookup_fmap, Hf. cbn [fmap option_fmap option_map of_option mbind result_bind].
    unfold GPF.joinpath_entry. cbn [GPF.to_path mbind result_bind].
    rewrite IH by lia.
    destruct (map_result to_path dirs) as [ds|e]; [|done]. cbn [mbind result_bind].
    rewrite (drop_S ps f i Hf). simpl. by rewrite <- (assoc_L (++)).
Qed.

Lemma join_one_loop (q : P) (ps : list P) (acc : list (GPF.entry P)) (i : nat) :
  for_enumerate
    (λ paf (f_i : nat) f, r ← GPF.joinpath_entry Path joinpath q f; Ok (paf ++ [GPF.EPath r]))
    i (GPF.EPath <$> ps) acc
  = Ok (acc ++ ((λ f, GPF.EPath (joinpath q f)) <$> ps)).
Proof.
  revert i acc. induction ps as [|p ps IH]; intros i acc; simpl.
  - by rewrite app_nil_r.
  - rewrite IH. by rewrite <- (assoc_L (++)).
Qed.

(** The value and the effect of a call on a list of file names, in closed form. *)
Lemma handle_list (fs : list (GPF.entry P)) (path : GPF.names P) :
  handle (GPF.NList fs) path
  = ps ← map_result to_path fs;
    let passed := GPF.NList (GPF.EPath <$> ps) in
    match path with
    | GPF.NNone => Ok (Some (GPF.EPath <$> ps), passed)
    | GPF.NOne p =>
        q ← to_path p;
        Ok (Some ((λ f, GPF.EPath (joinpath q f)) <$> ps), passed)
    | GPF.NList dirs =>
        if decide (length fs = length dirs) then
          ds ← map_result to_path dirs;
          Ok (Some (zip_with (λ d f, GPF.EPath (joinpath d f)) ds ps), passed)
        else Raise (IndexError ("Length of filename (" +:+ pretty (length fs) +:+
                                ") and path (" +:+ pretty (length dirs) +:+
                                ") is not the same."))
    end.
Proof.
  unfold GPF.handle_filename_path.
  pose proof (to_path_loop [] fs) as Hloop. simpl in Hloop.
  assert (∀ ps, map_result to_path fs = Ok ps → length ps = length fs) as Hlen.
  { intros ps Hps. apply map_result_Forall2 in Hps. symmetry. by eapply Forall2_length. }
  destruct path as [|p|dirs]; rewrite Hloop;
    destruct (map_result to_path fs) as [ps|e] eqn:Hps; try done;
    cbn [mbind result_bind]; cbv zeta.
  - destruct (to_path p) as [q|e]; [|done]. cbn [mbind result_bind].
    by rewrite join_one_loop.
  - rewrite length_fmap, (Hlen ps eq_refl).
    destruct (decide (length fs = length dirs)) as [Heq|Hne].
    + rewrite decide_False by (intros ?; done).
      rewrite join_list_loop by (rewrite (Hlen ps eq_refl); lia).
      destruct (map_result to_path dirs) as [ds|e]; [|done]. reflexivity.
    + by rewrite decide_True.
Qed.

Lemma handle_one_value (f : GPF.entry P) (path : GPF.names P) :
  handle (GPF.NOne f) path
  = '(paf, _) ← handle (GPF.NList [f]) path; Ok (paf, GPF.NOne f).
Proof.
  unfold GPF.handle_filename_path.
  destruct path as [|p|dirs];
    destruct (for_enumerate _ 0 [f] [f]) as [files|e]; try done; cbn [mbind result_bind].
  - destruct (to_path p) as [q|e]; [|done]. cbn [mbind result_bind].
    by destruct (for_enumerate _ 0 files []).
  - case_decide; [done|]. by destruct (for_enumerate _ 0 dirs []).
Qed.

End PathLoops.

Section PathTheorems.
Context {P : Type} (Path : string → P) (joinpath : P → P → P).

Local Abbreviation to_path := (GPF.to_path Path).
Local Abbreviation handle := (GPF.handle_filename_path Path joinpath).

(** X13. For file names and paths that [pathlib.Path] accepts,
    [handle_filename_path] returns: without a path, the file names as [Path]
    objects; with one path, every file name joined to it; with a list of paths
    of the same length, each file name joined to the path at its position.  A
    single file name gives what the list of that one name gives.  The list
    passed as [filename] is left holding the [Path] objects. *)
Theorem handle_filename_path_joins (fs dirs : list (GPF.entry P)) (dir : GPF.entry P)
    (ps ds : list P) (d : P) :
  map_result to_path fs = Ok ps → map_result to_path dirs = Ok ds → to_path dir = Ok d →
  let passed := GPF.NList (GPF.EPath <$> ps) in
  handle (GPF.NList fs) GPF.NNone = Ok (Some (GPF.EPath <$> ps), passed)
  ∧ handle (GPF.NList fs) (GPF.NOne dir)
    = Ok (Some ((λ f, GPF.EPath (joinpath d f)) <$> ps), passed)
  ∧ (length fs = length dirs →
     handle (GPF.NList fs) (GPF.NList dirs)
     = Ok (Some (zip_with (λ d f, GPF.EPath (joinpath d f)) ds ps), passed))
  ∧ (∀ (f : GPF.entry P) (path : GPF.names P),
       fst <$> handle (GPF.NOne f) path = fst <$> handle (GPF.NList [f]) path).
Proof.
  intros Hfs Hdirs Hdir passed. rewrite !handle_list, Hfs. cbn [mbind result_bind].
  rewrite Hdir, Hdirs. cbn [mbind result_bind].
  split; [done|]. split; [done|]. split.
  - intros Hlen. by rewrite decide_True.
  - intros f path. rewrite handle_one_value.
    by destruct (handle (GPF.NList [f]) path) as [[paf x]|e].
Qed.

(** X14. [handle_filename_path] returns [None] when neither argument is
    given; it raises a [TypeError] when a path is given without a file name
    and when an entry of [filename] is not accepted by [pathlib.Path]; and it
    raises an [IndexError] that names both lengths when [filename] and [path]
    are lists of different lengths. *)
Theorem handle_filename_path_errors (fs dirs : list (GPF.entry P)) (path : GPF.names P)
    (ps : list P) :
  handle GPF.NNone GPF.NNone = Ok (None, GPF.NNone)
  ∧ (path ≠ GPF.NNone → handle GPF.NNone path = Raise (TypeError BadOperand))
  ∧ (GPF.EOther ∈ fs → handle (GPF.NList fs) path = Raise (TypeError BadOperand))
  ∧ (map_result to_path fs = Ok ps → length fs ≠ length dirs →
     handle (GPF.NList fs) (GPF.NList dirs)
     = Raise (IndexError ("Length of filename (" +:+ pretty (length fs) +:+
                          ") and path (" +:+ pretty (length dirs) +:+
                          ") is not the same."))).
Proof.
  split; [done|]. split; [|split].
  - by destruct path.
  - intros Hin. rewrite handle_list.
    assert (map_result to_path fs = Raise (TypeError BadOperand)) as ->; [|done].
    induction fs as [|f fs IH]; [by apply elem_of_nil in Hin|].
    apply elem_of_cons in Hin as [<-|Hin]; [done|].
    destruct f as [s|p|]; simpl; [by rewrite IH|by rewrite IH|done].
  - intros Hfs Hlen. rewrite handle_list, Hfs. cbn [mbind result_bind].
    by rewrite decide_False.
Qed.

(** X15. A list returned by [handle_filename_path] has one entry per file
    name and is a fixed point: passed back as [filename] without a path, it is
    returned as it is. *)
Theorem handle_filename_path_idempotent (fs paf : list (GPF.entry P))
    (path passed : GPF.names P) :
  handle (GPF.NList fs) path = Ok (Some paf, passed) →
  length paf = length fs
  ∧ handle (GPF.NList paf) GPF.NNone = Ok (Some paf, GPF.NList paf).
Proof.
  rewrite handle_list. intros H.
  apply result_bind_inv in H as (ps & Hps & H). cbv zeta in H.
  assert (length ps = length fs) as Hlen.
  { apply map_result_Forall2 in Hps. symmetry. by eapply Forall2_length. }
  assert (∀ qs : list P, handle (GPF.NList (GPF.EPath <$> qs)) GPF.NNone
            = Ok (Some (GPF.EPath <$> qs), GPF.NList (GPF.EPath <$> qs))) as Hfix.
  { intros qs. by rewrite handle_list, to_path_paths. }
  destruct path as [|p|dirs].
  - simplify_eq. split; [by rewrite length_fmap|]. apply Hfix.
  - apply result_bind_inv in H as (q & Hq & H). simplify_eq.
    split; [by rewrite length_fmap|].
    rewrite (list_fmap_compose (joinpath q) GPF.EPath). apply Hfix.
  - case_decide as Hl; [|done].
    apply result_bind_inv in H as (ds & Hds & H). simplify_eq.
    assert (length ds = length dirs) as Hlen'.
    { apply map_result_Forall2 in Hds. symmetry. by eapply Forall2_length. }
    split; [rewrite length_zip_with; lia|].
    replace (zip_with (λ d f, GPF.EPath (joinpath d f)) ds ps)
      with (GPF.EPath <$> zip_with joinpath ds ps); [apply Hfix|].
    clear. revert ps. induction ds as [|d ds IH]; intros [|p ps]; simpl; try done.
    by rewrite IH.
Qed.

End PathTheorems.

(** ** The stability attributes *)









(** X17. [Source(...)] without keyword arguments is the instance with
    every optional attribute [None].  When both [stability_index] and
    [stability_class] are given and the constructor returns, the class is the
    one given and the index is the one converted from that class: the index
    given is validated (it converts), but not kept. *)
Theorem source_init_stability (source_id : Z) (molecule : Source.Molecule) (verbose : Z)
    (kw : Source.kwargs) :
  Source.__init__ source_id molecule verbose Source.no_kwargs
  = Ok (Source.init source_id molecule verbose)
  ∧ (∀ (i : ivalue) (c : cvalue) (self : Source.t),
       Source.kw_stability_index kw = Some i → Source.kw_stability_class kw = Some c →
       Source.__init__ source_id molecule verbose kw = Ok self →
       Source._stability_class self = Some c
       ∧ (∃ idx, GPF.stability_class2index c = Ok idx
                 ∧ Source._stability_index self = Some idx)
       ∧ ∃ c', GPF.stability_index2class i = Ok c').
Proof.
  split; [reflexivity|].
  intros i c self Hi Hc. unfold Source.__init__. rewrite Hi, Hc. cbv zeta.
  unfold Source.stability_index_setter, Source.stability_class_setter. cbv zeta.
  destruct (GPF.stability_index2class i) as [c'|e]; [|done].
  cbn [mbind result_bind].
  destruct (GPF.stability_class2index c) as [idx|e]; [|done].
  intros [= <-]. split; [done|]. split; eauto.
Qed.

Section PlumeInit.
Context {P : Type} (Path : string → P) (joinpath : P → P → P).



End PlumeInit.

(** ** Parameter files *)














(** X22. [import_measurement_parameters_txt] returns for an empty file
    only: for a file with at least one line it raises a [TypeError], the call
    of [parse_lines_txt] lacking the argument [array]. *)
Theorem import_measurement_parameters_txt_fails (line : string) (lines : list string) :
  Parameters.import_measurement_parameters_txt [] = Ok ()
  ∧ Parameters.import_measurement_parameters_txt (line :: lines)
    = Raise (TypeError (MissingArgument "array")).
Proof. split; reflexivity. Qed.

(** ** The molecules of the imported data *)

Lemma set_molecules_twice (self : Plume.t) (ms ms' : list string) :
  Plume.set_molecules (Plume.set_molecules self ms) ms' = Plume.set_molecules self ms'.
Proof. reflexivity. Qed.

Lemma import_loop (GPC : GPConstants) (self : Plume.t) (cols : list string) :
  let found := filter (λ c, c ∈ implemented_molecules GPC) cols in
  foldl (λ self col_name,
           if decide (col_name ∈ implemented_molecules GPC) then
             match Plume.molecules self with
             | None => Plume.set_molecules self [col_name]
             | Some ms => Plume.set_molecules self (ms ++ [col_name])
             end
           else self) self cols
  = if decide (found = []) then self
    else Plume.set_molecules self (default [] (Plume.molecules self) ++ found).
Proof.
  revert self. induction cols as [|c cols IH]; intros self; [done|].
  cbn [foldl]. rewrite filter_cons. cbv zeta in *.
  destruct (decide (c ∈ implemented_molecules GPC)) as [Hc|Hc].
  - rewrite (decide_False (P := c :: _ = [])) by done.
    assert ((match Plume.molecules self with
             | None => Plume.set_molecules self [c]
             | Some ms => Plume.set_molecules self (ms ++ [c])
             end) = Plume.set_molecules self (default [] (Plume.molecules self) ++ [c]))
      as -> by (by destruct (Plume.molecules self)).
    rewrite IH. case_decide as Hf.
    + by rewrite Hf.
    + rewrite set_molecules_twice. cbn [Plume.molecules Plume.set_molecules].
      cbn [default from_option id]. by rewrite <- (assoc_L (++)).
  - apply IH.
Qed.

(** X23. The closing loop of [Plume.import_data] appends to
    [self.molecules] the columns of the data frame that name an implemented
    molecule, in the order of the columns, and leaves [self.molecules] as it
    is ([None] included) when there is none.  A second run over the same data
    frame appends the same names again. *)
Theorem import_data_molecules_appends (GPC : GPConstants) (self : Plume.t)
    (d : Plume.DataFrame) :
  Plume.df self = Some d →
  let found := filter (λ c, c ∈ implemented_molecules GPC) (Plume.columns d) in
  let self1 := if decide (found = []) then self
               else Plume.set_molecules self (default [] (Plume.molecules self) ++ found) in
  Plume.import_data_molecules GPC self = Ok self1
  ∧ Plume.import_data_molecules GPC self1
    = Ok (if decide (found = []) then self
          else Plume.set_molecules self
                 (default [] (Plume.molecules self) ++ found ++ found)).
Proof.
  intros Hdf found self1. unfold Plume.import_data_molecules, Plume.get_df.
  assert (Plume.df self1 = Some d) as Hdf1.
  { unfold self1. by case_decide. }
  rewrite Hdf, Hdf1. cbn [of_option mbind result_bind]. rewrite !import_loop.
  fold found. split; [done|]. unfold self1. case_decide; [done|].
  rewrite set_molecules_twice. cbn [Plume.molecules Plume.set_molecules].
  cbn [default from_option id]. by rewrite <- (assoc_L (++)).
Qed.

(** ** Unset operands *)





Section Unset.
Context (L : libm) (GPC : GPConstants).
Local Open Scope float_scope.


End Unset.

Section Requires.
Context (L : libm) (GPC : GPConstants).
Local Open Scope float_scope.

Lemma is_None_false (o : obj) : Source.is_None o = false ↔ o ≠ ONone.
Proof. destruct o; simpl; split; done. Qed.

(** X25. [Source.calculate_dxdy] returns only if [dx] and [dy] are both
    set, or the wind direction is set and, for the source and for the
    measurement, either both offsets or the coordinates of the point and of
    the reference are set. *)
Theorem calculate_dxdy_requires (self : Source.t) (h h' : heap) (r : value * Source.t) :
  Source.calculate_dxdy L GPC self h = (Ok r, h') →
  (Source.dx self ≠ ONone ∧ Source.dy self ≠ ONone)
  ∨ (Source.wind_direction self ≠ ONone
     ∧ ((Source.dlatS self ≠ ONone ∧ Source.dlonS self ≠ ONone)
        ∨ Forall (λ o, o ≠ ONone)
            [Source.latS self; Source.lonS self; Source.latR self; Source.lonR self])
     ∧ ((Source.dlatM self ≠ ONone ∧ Source.dlonM self ≠ ONone)
        ∨ Forall (λ o, o ≠ ONone)
            [Source.latM self; Source.lonM self; Source.latR self; Source.lonR self])).
Proof.
  unfold Source.calculate_dxdy. intros H.
  destruct (Source.is_None (Source.dx self)) eqn:Hdx;
    [|destruct (Source.is_None (Source.dy self)) eqn:Hdy];
    cbn [negb andb] in H;
    try (left; split; by apply is_None_false).
  all: right.
  all: apply St_bind_inv in H as (s1 & h1 & HS & H).
  all: apply St_bind_inv in H as (s2 & h2 & HM & H).
  all: destruct (Source.is_None (Source.wind_direction s2)) eqn:Hwd; [discriminate H|].
  all: clear H.
  all: assert (Source.dlatM s1 = Source.dlatM self ∧ Source.dlonM s1 = Source.dlonM self
               ∧ Source.latM s1 = Source.latM self ∧ Source.lonM s1 = Source.lonM self
               ∧ Source.latR s1 = Source.latR self ∧ Source.lonR s1 = Source.lonR self
               ∧ Source.wind_direction s1 = Source.wind_direction self
               ∧ ((Source.dlatS self ≠ ONone ∧ Source.dlonS self ≠ ONone)
                  ∨ Forall (λ o, o ≠ ONone)
                      [Source.latS self; Source.lonS self; Source.latR self;
                       Source.lonR self]))
         as (E1 & E2 & E3 & E4 & E5 & E6 & E7 & HS').
  1,3: destruct (Source.is_None (Source.dlatS self)) eqn:Ha;
       [|destruct (Source.is_None (Source.dlonS self)) eqn:Hb];
       cbn [orb] in HS;
       try (injection HS as <- _; repeat split; try done;
            left; split; by apply is_None_false);
       (destruct (Source.is_None (Source.latS self)) eqn:H1; [discriminate HS|]);
       (destruct (Source.is_None (Source.lonS self)) eqn:H2; [discriminate HS|]);
       (destruct (Source.is_None (Source.latR self)) eqn:H3; [discriminate HS|]);
       (destruct (Source.is_None (Source.lonR self)) eqn:H4; [discriminate HS|]);
       cbn [negb andb] in HS;
       do 4 (apply St_bind_inv in HS as (? & ? & _ & HS));
       apply St_bind_inv in HS as ([[a b] w] & ? & _ & HS);
       apply St_bind_inv in HS as (oa & ? & _ & HS);
       apply St_bind_inv in HS as (ob & ? & _ & HS);
       injection HS as <- _; repeat split; try done;
       right; repeat constructor; by apply is_None_false.
  all: rewrite E1, E2, E3, E4, E5, E6 in HM.
  all: assert (Source.wind_direction s2 = Source.wind_direction s1
               ∧ ((Source.dlatM self ≠ ONone ∧ Source.dlonM self ≠ ONone)
                  ∨ Forall (λ o, o ≠ ONone)
                      [Source.latM self; Source.lonM self; Source.latR self;
                       Source.lonR self]))
         as (E8 & HM').
  1,3: destruct (Source.is_None (Source.dlatM self)) eqn:Ha;
       [|destruct (Source.is_None (Source.dlonM self)) eqn:Hb];
       cbn [orb] in HM;
       try (injection HM as <- _; repeat split; try done;
            left; split; by apply is_None_false);
       (destruct (Source.is_None (Source.latM self)) eqn:H1; [discriminate HM|]);
       (destruct (Source.is_None (Source.lonM self)) eqn:H2; [discriminate HM|]);
       (destruct (Source.is_None (Source.latR self)) eqn:H3; [discriminate HM|]);
       (destruct (Source.is_None (Source.lonR self)) eqn:H4; [discriminate HM|]);
       cbn [negb andb] in HM;
       do 4 (apply St_bind_inv in HM as (? & ? & _ & HM));
       apply St_bind_inv in HM as ([[a b] w] & ? & _ & HM);
       apply St_bind_inv in HM as (oa & ? & _ & HM);
       apply St_bind_inv in HM as (ob & ? & _ & HM);
       injection HM as <- _; repeat split; try done;
       right; repeat constructor; by apply is_None_false.
  all: rewrite E8, E7 in Hwd; split; [by apply is_None_false|done].
Qed.


End Requires.

(** ** The further properties at sample inputs *)

Section NumericExamples.
Local Open Scope float_scope.

Lemma dlatdlon2dxdy_formula_witness :
  ∃ dx dy w,
    GPF.dlatdlon2dxdy Libm.small GPC_sample (Arr [-27.7; -27.7]) (Num 156.9)
      (Arr [435.1; 435.1]) (Num (-49.3)) (Arr [30; 60]) 100000 = Ok (dx, dy, w)
    ∧ shaped 2 dx ∧ shaped 2 dy
    ∧ ∀ k, (k < 2)%nat →
        get dx k = Formula.downwind Libm.small GPC_sample (get (Arr [-27.7; -27.7]) k)
                     (get (Num 156.9) k) (get (Arr [435.1; 435.1]) k)
                     (get (Num (-49.3)) k) (get (Arr [30; 60]) k)
        ∧ get dy k = Formula.crosswind Libm.small GPC_sample (get (Arr [-27.7; -27.7]) k)
                       (get (Num 156.9) k) (get (Arr [435.1; 435.1]) k)
                       (get (Num (-49.3)) k) (get (Arr [30; 60]) k).
Proof.
  apply (dlatdlon2dxdy_formula Libm.small GPC_sample 2 (Arr [-27.7; -27.7]) (Num 156.9)
           (Arr [435.1; 435.1]) (Num (-49.3)) (Arr [30; 60]) 100000); simpl; done.
Defined.

Lemma distance_warning_counts_witness :
  (∃ dlat dlon,
     GPF.latlon2dlatdlon Libm.small GPC_sample (Arr [53.2835; 54.5]) (Num 6.3039)
       (Num 53.28375) (Num 6.3024917) 100000 None None
     = Ok (dlat, dlon, distance_warnings Libm.small 100000 dlat dlon))
  ∧ (∃ dx dy,
     GPF.dlatdlon2dxdy Libm.small GPC_sample (Arr [-27.7; -27.7]) (Num 156.9)
       (Arr [435.1; 435.1]) (Num (-49.3)) (Arr [30; 60]) 100000
     = Ok (dx, dy, distance_warnings Libm.small 100000 dx dy)).
Proof.
  apply (distance_warning_counts Libm.small GPC_sample 2
           (Arr [53.2835; 54.5]) (Num 6.3039) (Num 53.28375) (Num 6.3024917)
           (Arr [-27.7; -27.7]) (Num 156.9) (Arr [435.1; 435.1]) (Num (-49.3))
           (Arr [30; 60]) 100000 None None); simpl; done.
Defined.



Lemma calculate_sigma_negative_index_witness :
  GPF.calculate_sigma Libm.small GPC_sample (OArr 0%nat) (OFloat 1.5) (OArr 1%nat)
    (Some nogepa) (IArr [-1; 3]%Z) 0.001 (OFloat 0) None None two_observations
  = GPF.calculate_sigma Libm.small GPC_sample (OArr 0%nat) (OFloat 1.5) (OArr 1%nat)
      (Some nogepa) (IArr [5; 3]%Z) 0.001 (OFloat 0) None None two_observations.
Proof.
  apply (calculate_sigma_negative_index Libm.small GPC_sample two_observations
           (OArr 0%nat) (OFloat 1.5) (OArr 1%nat) (OFloat 0) nogepa (IArr [-1; 3]%Z)).
  repeat constructor; simpl; lia.
Defined.

End NumericExamples.

Section StabilityExamples.

Lemma stability_class2index_numpy_string_witness :
  GPF.stability_class2index (CNpStr "e") = Ok (IArr [class_code "e"])
  ∧ GPF.stability_class2index (CNpStr "AB")
    = Raise (ValueError
        (if decide (String.length "AB" ≤ 2)
         then foldl (λ msg v, msg +:+ " " +:+ v) "Invalid inputs for stability_class:"
                (characters "AB")
         else pretty (String.length "AB") +:+ " invalid inputs for stability_class")).
Proof.
  split.
  - apply (proj1 (stability_class2index_numpy_string "e")).
    apply (bool_decide_unpack _). vm_compute. exact I.
  - apply (proj2 (proj2 (stability_class2index_numpy_string "AB"))); [|discriminate].
    intros Hin. apply (bool_decide_pack _) in Hin. vm_compute in Hin. exact Hin.
Defined.


Lemma source_init_stability_witness :
  ∃ self,
    Source.__init__ 1 methane 0 kwargs_index_and_class = Ok self
    ∧ Source._stability_class self = Some (CStr "f")
    ∧ Source._stability_index self = Some (IArr [5%Z]).
Proof.
  eexists. split; [reflexivity|].
  match goal with
  | |- context [Source._stability_class ?s] =>
      destruct (proj2 (source_init_stability 1 methane 0 kwargs_index_and_class)
                  (IInt 0) (CStr "f") s eq_refl eq_refl eq_refl)
        as (Hc & (idx & Hidx & Hi) & _)
  end.
  split; [exact Hc|]. rewrite Hi. f_equal. vm_compute in Hidx. by injection Hidx as <-.
Defined.



End StabilityExamples.

Section PathExamples.

Lemma handle_filename_path_joins_witness :
  GPF.handle_filename_path text_Path text_joinpath
    (GPF.NList [GPF.EStr "filename_1.ext"; GPF.EPath "filename_2.ext"])
    (GPF.NList [GPF.EStr "C:/path_1"; GPF.EStr "C:/path_2"])
  = Ok (Some [GPF.EPath "C:/path_1/filename_1.ext"; GPF.EPath "C:/path_2/filename_2.ext"],
        GPF.NList [GPF.EPath "filename_1.ext"; GPF.EPath "filename_2.ext"]).
Proof.
  apply (proj1 (proj2 (proj2
           (handle_filename_path_joins text_Path text_joinpath
              [GPF.EStr "filename_1.ext"; GPF.EPath "filename_2.ext"]
              [GPF.EStr "C:/path_1"; GPF.EStr "C:/path_2"] (GPF.EStr "C:/path")
              ["filename_1.ext"; "filename_2.ext"] ["C:/path_1"; "C:/path_2"] "C:/path"
              eq_refl eq_refl eq_refl)))).
  reflexivity.
Defined.

Lemma handle_filename_path_errors_witness :
  GPF.handle_filename_path text_Path text_joinpath
    (GPF.NList [GPF.EStr "filename_1.ext"; GPF.EStr "filename_2.ext"; GPF.EStr "filename_3.ext"])
    (GPF.NList [GPF.EStr "C:/path_1"; GPF.EStr "C:/path_2"])
  = Raise (IndexError ("Length of filename (" +:+ pretty 3%nat +:+
                       ") and path (" +:+ pretty 2%nat +:+ ") is not the same.")).
Proof.
  apply (proj2 (proj2 (proj2
           (handle_filename_path_errors text_Path text_joinpath
              [GPF.EStr "filename_1.ext"; GPF.EStr "filename_2.ext"; GPF.EStr "filename_3.ext"]
              [GPF.EStr "C:/path_1"; GPF.EStr "C:/path_2"] GPF.NNone
              ["filename_1.ext"; "filename_2.ext"; "filename_3.ext"])))).
  - reflexivity.
  - simpl. lia.
Defined.

Lemma handle_filename_path_idempotent_witness :
  length [GPF.EPath (P:=string) "C:/path/filename_1.ext"; GPF.EPath "C:/path/filename_2.ext"]
  = length [GPF.EStr (P:=string) "filename_1.ext"; GPF.EStr "filename_2.ext"]
  ∧ GPF.handle_filename_path text_Path text_joinpath
      (GPF.NList [GPF.EPath "C:/path/filename_1.ext"; GPF.EPath "C:/path/filename_2.ext"])
      GPF.NNone
    = Ok (Some [GPF.EPath "C:/path/filename_1.ext"; GPF.EPath "C:/path/filename_2.ext"],
          GPF.NList [GPF.EPath "C:/path/filename_1.ext"; GPF.EPath "C:/path/filename_2.ext"]).
Proof.
  apply (handle_filename_path_idempotent text_Path text_joinpath
           [GPF.EStr "filename_1.ext"; GPF.EStr "filename_2.ext"]
           [GPF.EPath "C:/path/filename_1.ext"; GPF.EPath "C:/path/filename_2.ext"]
           (GPF.NOne (GPF.EStr "C:/path"))
           (GPF.NList [GPF.EPath "filename_1.ext"; GPF.EPath "filename_2.ext"])).
  reflexivity.
Defined.

End PathExamples.

Section SourceExamples.
Local Open Scope float_scope.

Lemma calculate_dxdy_from_coordinates_witness :
  ∃ dlatS dlonS dlatM dlonM dx dy h',
    Source.calculate_dxdy Libm.small GPC_sample source_coordinates ∅
    = (Ok (VNone, Source.set_dx_dy
                    (Source.set_dlatM_dlonM
                       (Source.set_dlatS_dlonS source_coordinates dlatS dlonS)
                       dlatM dlonM) dx dy), h')
    ∧ ∅ ⊆ h'
    ∧ Forall (oshaped h' 1) [dlatS; dlonS; dlatM; dlonM; dx; dy]
    ∧ ∀ k, (k < 1)%nat →
        let nS := north_of Libm.small GPC_sample ∅ (OFloat 53.2835) (OFloat 53.28375) k in
        let eS := east_of Libm.small GPC_sample ∅ (OFloat 53.2835) (OFloat 6.3039)
                    (OFloat 6.3024917) k in
        let nM := north_of Libm.small GPC_sample ∅ (OFloat 53.2876717) (OFloat 53.28375) k in
        let eM := east_of Libm.small GPC_sample ∅ (OFloat 53.2876717) (OFloat 6.3007517)
                    (OFloat 6.3024917) k in
        oget h' dlatS k = nS ∧ oget h' dlonS k = eS
        ∧ oget h' dlatM k = nM ∧ oget h' dlonM k = eM
        ∧ oget h' dx k = Formula.downwind Libm.small GPC_sample nS eS nM eM
                           (oget ∅ (OFloat 30) k)
        ∧ oget h' dy k = Formula.crosswind Libm.small GPC_sample nS eS nM eM
                           (oget ∅ (OFloat 30) k).
Proof.
  apply (calculate_dxdy_from_coordinates Libm.small GPC_sample source_coordinates ∅ 1%nat);
    [by left|by left|by left|repeat constructor].
Defined.

Lemma calculate_dxdy_idempotent_witness :
  ∃ self' h',
    Source.calculate_dxdy Libm.small GPC_sample source_coordinates ∅ = (Ok (VNone, self'), h')
    ∧ Source.calculate_dxdy Libm.small GPC_sample self' h' = (Ok (VNone, self'), h').
Proof.
  eexists _, _. split; [vm_compute; reflexivity|].
  apply (calculate_dxdy_idempotent Libm.small GPC_sample source_coordinates _ ∅ _ VNone).
  vm_compute. reflexivity.
Defined.

Lemma calculate_dxdy_requires_witness :
  (Source.dx source_with_dxdy ≠ ONone ∧ Source.dy source_with_dxdy ≠ ONone)
  ∨ (Source.wind_direction source_with_dxdy ≠ ONone
     ∧ ((Source.dlatS source_with_dxdy ≠ ONone ∧ Source.dlonS source_with_dxdy ≠ ONone)
        ∨ Forall (λ o, o ≠ ONone)
            [Source.latS source_with_dxdy; Source.lonS source_with_dxdy;
             Source.latR source_with_dxdy; Source.lonR source_with_dxdy])
     ∧ ((Source.dlatM source_with_dxdy ≠ ONone ∧ Source.dlonM source_with_dxdy ≠ ONone)
        ∨ Forall (λ o, o ≠ ONone)
            [Source.latM source_with_dxdy; Source.lonM source_with_dxdy;
             Source.latR source_with_dxdy; Source.lonR source_with_dxdy])).
Proof.
  apply (calculate_dxdy_requires Libm.small GPC_sample source_with_dxdy ∅ ∅
           (VNone, source_with_dxdy)).
  reflexivity.
Defined.


End SourceExamples.

Section PlumeExamples.
Local Open Scope float_scope.

Lemma import_data_molecules_appends_witness :
  Plume.import_data_molecules GPC_sample (plume_of frame_molecules)
  = Ok (Plume.set_molecules (plume_of frame_molecules) ["no"])
  ∧ Plume.import_data_molecules GPC_sample
      (Plume.set_molecules (plume_of frame_molecules) ["no"])
    = Ok (Plume.set_molecules (plume_of frame_molecules) ["no"; "no"]).
Proof.
  exact (import_data_molecules_appends GPC_sample (plume_of frame_molecules) frame_molecules
           eq_refl).
Defined.

Lemma prepare_dxdy_computes_witness :
  ∃ dx dy,
    Plume.calculate_concentration_prepare_dxdy Libm.small GPC_sample
      (plume_of frame_coordinates) []
    = Ok (VNone, Plume.set_df (plume_of frame_coordinates)
                   (frame_coordinates ++ [("dx", dx); ("dy", dy)]))
    ∧ length dx = 2%nat ∧ length dy = 2%nat
    ∧ ∀ k, (k < 2)%nat →
        dx !! k = Some (frame_dx Libm.small GPC_sample frame_coordinates k)
        ∧ dy !! k = Some (frame_dy Libm.small GPC_sample frame_coordinates k).
Proof.
  apply (prepare_dxdy_computes Libm.small GPC_sample (plume_of frame_coordinates)
           frame_coordinates [] 2%nat).
  - reflexivity.
  - repeat constructor.
  - apply (bool_decide_unpack _). vm_compute. exact I.
  - intros Hin. apply (bool_decide_pack _) in Hin. vm_compute in Hin. exact Hin.
  - intros Hin. apply (bool_decide_pack _) in Hin. vm_compute in Hin. exact Hin.
  - repeat constructor; apply (bool_decide_unpack _); vm_compute; exact I.
Defined.

Lemma prepare_dxdy_one_present_witness :
  Plume.calculate_concentration_prepare_dxdy Libm.small GPC_sample
    (plume_of (("dx", [-296.06762177; -49.9696837]) :: frame_coordinates)) []
  = Raise (ValueError "cannot insert dx, already exists").
Proof.
  apply (proj1 (prepare_dxdy_one_present Libm.small GPC_sample
                  (plume_of (("dx", [-296.06762177; -49.9696837]) :: frame_coordinates))
                  (("dx", [-296.06762177; -49.9696837]) :: frame_coordinates) [] 2%nat
                  eq_refl
                  ltac:(repeat constructor)
                  ltac:(apply (bool_decide_unpack _); vm_compute; exact I)
                  ltac:(repeat constructor; apply (bool_decide_unpack _); vm_compute;
                        exact I))).
  - apply (bool_decide_unpack _). vm_compute. exact I.
  - intros Hin. apply (bool_decide_pack _) in Hin. vm_compute in Hin. exact Hin.
Defined.

Lemma prepare_tc_never_computes_witness :
  (VNone, plume_of frame_tc) = (VNone, plume_of frame_tc)
  ∧ ∃ d, Plume.df (plume_of frame_tc) = Some d ∧ "tc" ∈ Plume.columns d.
Proof.
  apply (prepare_tc_never_computes (plume_of frame_tc) []). reflexivity.
Defined.

Lemma prepare_dispersion_constants_never_fetches_witness :
  Plume.calculate_concentration_prepare_dispersion_constants GPC_sample
    {| Plume.verbose := 0; Plume.df := None; Plume.dispersion_constants := None;
       Plume.molecules := None; Plume.molecular_properties := None;
       Plume.molecular_mass := None; Plume.mode := Some "nogepa" |} []
  = Raise (TypeError (UnexpectedKeyword "mode")).
Proof.
  apply (proj1 (prepare_dispersion_constants_never_fetches GPC_sample
                  {| Plume.verbose := 0; Plume.df := None;
                     Plume.dispersion_constants := None;
                     Plume.molecules := None; Plume.molecular_properties := None;
                     Plume.molecular_mass := None; Plume.mode := Some "nogepa" |} [])
           "nogepa"); reflexivity.
Defined.

Lemma get_molecular_properties_result_witness :
  ∃ self',
    Plume.calculate_concentration_get_molecular_properties GPC_sample
      (Plume.set_molecules (plume_of frame_molecules) ["no"]) [] = Ok (VNone, self')
    ∧ Plume.molecular_mass self' = Some [30]
    ∧ Plume.calculate_concentration_get_molecular_properties GPC_sample self' []
      = Ok (VNone, self').
Proof.
  eexists. split; [reflexivity|]. split; [reflexivity|].
  apply (get_molecular_properties_result GPC_sample
           (Plume.set_molecules (plume_of frame_molecules) ["no"]) _ [] VNone).
  reflexivity.
Defined.

End PlumeExamples.

Section ParameterExamples.



End ParameterExamples.
